(** * covid-19-dash: the ETL pipeline of [covid_dash_app/etl.py]

    A shallow embedding of the tabular transforms of [etl.py] (melt,
    group-and-sum, date index, per-country diff, left joins on the index,
    derived columns), of the remote fetches they start from and of the
    memoising decorator that wraps [get_datasets], followed by the
    properties the specification states about them.

    Conventions of the embedding.
    - A numeric cell of a pandas frame is a [Cell]: not-a-number (which is
      also how pandas stores a missing value), an infinity, or a finite
      number, written as the rational its int64 or float64 value denotes.
      Arithmetic is that of the machine formats: int64 results wrap
      around, float64 results are rounded to the nearest binary64 value.
      A column is int64 when all its cells are integers of that range and
      float64 otherwise.
    - A frame indexed by (country, date) is a [Frame]: the column labels
      and, row by row in the frame's order, the index key and the cells.
    - Remote resources are a [World]; every request is appended to a log,
      and a Python exception is the left injection of a sum. *)

From Stdlib Require Import List ZArith QArith Qround String Ascii Bool Lia.
From Stdlib Require Import Permutation Sorted OrderedTypeEx.
Import ListNotations.

Local Open Scope string_scope.
Local Open Scope Z_scope.
Local Open Scope list_scope.

(* ------------------------------------------------------------------ *)
(** ** Cells and their arithmetic *)

Inductive Cell : Type :=
| NaN
| Inf (negative : bool)
| Num (q : Q).

Definition Int (z : Z) : Cell := Num (inject_Z z).

Definition is_nan (c : Cell) : bool :=
  match c with NaN => true | _ => false end.

Definition is_int (c : Cell) : bool :=
  match c with
  | Num q => Pos.eqb (Qden q) 1
  | _ => false
  end.

Definition q_is_zero (q : Q) : bool := Z.eqb (Qnum q) 0.

Definition q_negative (q : Q) : bool := Z.ltb (Qnum q) 0.

(** The integer of an integer cell. *)
Definition cell_Z (c : Cell) : Z :=
  match c with
  | Num q => Qnum q
  | _ => 0
  end.

(** *** The two machine formats *)

Inductive dtype : Type := int64 | float64.

(** Two's complement: the int64 that the low 64 bits of [z] denote. *)
Definition wrap64 (z : Z) : Z := (z + 2 ^ 63) mod 2 ^ 64 - 2 ^ 63.

Definition is_int64 (c : Cell) : bool :=
  is_int c && (- 2 ^ 63 <=? cell_Z c) && (cell_Z c <? 2 ^ 63).

(** The dtype pandas gives a numeric column: int64 when every cell is an
    integer of that range, float64 as soon as one cell is missing,
    infinite or fractional. *)
Definition column_dtype (cs : list Cell) : dtype :=
  if forallb is_int64 cs then int64 else float64.

(** The quotient [n / d] of two positive integers, rounded to the nearest
    integer, a tie going to the even one. *)
Definition div_half_even (n d : Z) : Z :=
  let m := n / d in
  match 2 * (n mod d) ?= d with
  | Lt => m
  | Gt => m + 1
  | Eq => if Z.even m then m else m + 1
  end.

(** The integer part of the binary logarithm of [a / d], for positive
    [a] and [d]. *)
Definition floor_log2 (a d : Z) : Z :=
  let k := Z.log2 a - Z.log2 d in
  if (if 0 <=? k then d * 2 ^ k <=? a else d <=? a * 2 ^ (- k)) then k else k - 1.

(** The binary64 value nearest to [q], ties to even: a 53-bit significand
    [m] at the exponent [e], the exponent not below -1074 (subnormal
    numbers), and an infinity when the rounded value leaves the format.
    The sign of a zero is not represented. *)
Definition round64 (q : Q) : Cell :=
  let a := Z.abs (Qnum q) in
  let d := Zpos (Qden q) in
  if a =? 0 then Num 0
  else
    let e := Z.max (floor_log2 a d - 52) (- 1074) in
    let m := div_half_even (a * 2 ^ Z.max 0 (- e)) (d * 2 ^ Z.max 0 e) in
    if (971 <? e) || ((e =? 971) && (m =? 2 ^ 53)) then Inf (Qnum q <? 0)
    else Num (Qred (Z.sgn (Qnum q) * m * 2 ^ Z.max 0 e # Z.to_pos (2 ^ Z.max 0 (- e)))).

(** [astype(float64)]: what a cell is once its column is float64. *)
Definition to_float (c : Cell) : Cell :=
  match c with
  | Num q => round64 q
  | other => other
  end.

(** *** float64 arithmetic

    Every operation is the exact result rounded to binary64 (IEEE 754);
    operands that are not float64 yet are converted first. *)

(** [a + b]: not-a-number is absorbing, opposite infinities cancel to
    not-a-number. *)
Definition cell_add (a b : Cell) : Cell :=
  match to_float a, to_float b with
  | NaN, _ | _, NaN => NaN
  | Inf s, Inf t => if Bool.eqb s t then Inf s else NaN
  | Inf s, Num _ => Inf s
  | Num _, Inf t => Inf t
  | Num p, Num q => round64 (Qplus p q)
  end.

Definition cell_neg (a : Cell) : Cell :=
  match a with
  | NaN => NaN
  | Inf s => Inf (negb s)
  | Num p => Num (Qopp p)
  end.

Definition cell_sub (a b : Cell) : Cell := cell_add a (cell_neg b).

Definition cell_mul (a b : Cell) : Cell :=
  match to_float a, to_float b with
  | NaN, _ | _, NaN => NaN
  | Inf s, Inf t => Inf (xorb s t)
  | Inf s, Num q => if q_is_zero q then NaN else Inf (xorb s (q_negative q))
  | Num p, Inf t => if q_is_zero p then NaN else Inf (xorb (q_negative p) t)
  | Num p, Num q => round64 (Qmult p q)
  end.

(** [a / b] as pandas computes it for numeric columns (true division, in
    float64 whatever the dtype of the operands): no exception on a zero
    divisor; 0/0 is not-a-number and x/0 is an infinity with the sign
    of x. *)
Definition cell_div (a b : Cell) : Cell :=
  match to_float a, to_float b with
  | NaN, _ | _, NaN => NaN
  | Inf _, Inf _ => NaN
  | Inf s, Num q => Inf (xorb s (q_negative q))
  | Num _, Inf _ => Num 0%Q
  | Num p, Num q =>
      if q_is_zero q then
        if q_is_zero p then NaN else Inf (q_negative p)
      else round64 (Qdiv p q)
  end.

(** Round half to even, the rule of [numpy.rint]. *)
Definition round_half_even (q : Q) : Z :=
  let f := Qfloor q in
  match Qcompare (Qminus q (inject_Z f)) (1 # 2)%Q with
  | Lt => f
  | Gt => f + 1
  | Eq => if Z.even f then f else f + 1
  end.

Definition rint (c : Cell) : Cell :=
  match to_float c with
  | Num q => Int (round_half_even q)
  | other => other
  end.

(** [np.round(x, decimals)] on float64: numpy multiplies by the power of
    ten, rounds to the nearest integer and divides again, each step in
    float64; so the decimal rounding is that of the float64 product, not
    of the exact quotient. *)
Definition np_round (c : Cell) (decimals : nat) : Cell :=
  match decimals with
  | O => rint c
  | S _ =>
      let factor := Int (10 ^ Z.of_nat decimals) in
      cell_div (rint (cell_mul c factor)) factor
  end.

(** *** int64 arithmetic: the exact result, wrapped *)

Definition int64_add (a b : Cell) : Cell := Int (wrap64 (cell_Z a + cell_Z b)).

Definition int64_sub (a b : Cell) : Cell := Int (wrap64 (cell_Z a - cell_Z b)).

(** [Series.fillna(v)]. *)
Definition fillna (v : Cell) (c : Cell) : Cell :=
  if is_nan c then v else c.

(** *** The sum of a group

    The kernel of [GroupBy.sum].  On int64 the values are added with
    wrap-around.  On float64 missing values are skipped and the others are
    added with a running compensation (Kahan summation), which is set
    back to 0 when an infinity made it not-a-number; a group without
    values sums to 0. *)
Definition sum_int64 (cs : list Cell) : Cell :=
  Int (fold_left (fun sumx c => wrap64 (sumx + cell_Z c)) cs 0).

Definition kahan_step (state : Cell * Cell) (val : Cell) : Cell * Cell :=
  let (sumx, compensation) := state in
  let y := cell_sub val compensation in
  let t := cell_add sumx y in
  let compensation' := cell_sub (cell_sub t sumx) y in
  (t, if is_nan compensation' then Int 0 else compensation').

Definition sum_float64 (cs : list Cell) : Cell :=
  fst (fold_left (fun state c => if is_nan c then state else kahan_step state c)
                 cs (Int 0, Int 0)).

Definition group_sum (dt : dtype) (cs : list Cell) : Cell :=
  match dt with
  | int64 => sum_int64 cs
  | float64 => sum_float64 cs
  end.

(* ------------------------------------------------------------------ *)
(** ** Strings *)

(** Python's [sub in s]. *)
Fixpoint contains (sub s : string) : bool :=
  match s with
  | EmptyString => prefix sub s
  | String _ s' => prefix sub s || contains sub s'
  end.

(** Python's [s.replace(old, new)] for a non-empty [old]: the occurrences
    are taken left to right and do not overlap.  [skip] counts the
    characters of a match that are still to be dropped. *)
Fixpoint replace_from (old new : string) (skip : nat) (s : string) : string :=
  match s with
  | EmptyString => EmptyString
  | String c s' =>
      match skip with
      | S k => replace_from old new k s'
      | O =>
          if prefix old s
          then String.append new (replace_from old new (String.length old - 1) s')
          else String c (replace_from old new O s')
      end
  end.

Definition replace (old new s : string) : string := replace_from old new O s.

(** The format ["<prefix> %s" % x]. *)
Definition percent_s (pre x : string) : string := String.append pre x.

(* ------------------------------------------------------------------ *)
(** ** Exceptions *)

Inductive Exn : Type :=
| URLError (url : string)        (* the resource could not be reached *)
| HTTPError (url : string) (code : Z)
| ParserError (url : string)     (* malformed CSV *)
| JSONDecodeError
| IndexError
| KeyError (key : string)
| TypeError
| ValueError (msg : string).

Definition Result (A : Type) : Type := (Exn + A)%type.

Definition bindR {A B : Type} (r : Result A) (f : A -> Result B) : Result B :=
  match r with
  | inl e => inl e
  | inr a => f a
  end.

(* ------------------------------------------------------------------ *)
(** ** Constants *)

Module Constants.
Definition TS_COVID19_CONFIRMED_GLOBAL := "time_series_covid19_confirmed_global".
Definition TS_COVID19_DEATHS_GLOBAL := "time_series_covid19_deaths_global".
Definition TS_COVID19_RECOVERED_GLOBAL := "time_series_covid19_recovered_global".
Definition TS_COVID19_CONFIRMED_COUNTRY := "time_series_covid19_confirmed_country".
Definition TS_COVID19_DEATHS_COUNTRY := "time_series_covid19_deaths_country".
Definition TS_COVID19_RECOVERED_COUNTRY := "time_series_covid19_recovered_country".
Definition TS_COVID19_DAILY_NEW_CONFIRMED_COUNTRY :=
  "time_series_covid19_daily_new_confirmed_country".
Definition TS_COVID19_DAILY_NEW_DEATHS_COUNTRY :=
  "time_series_covid19_daily_new_deaths_country".
Definition TS_COVID19_DAILY_NEW_RECOVERED_COUNTRY :=
  "time_series_covid19_daily_new_recovered_country".
Definition TS_COVID19_CONSOLIDATED_COUNTRY := "time_series_covid19_consolidated_country".
Definition TS_COVID19_ACTIVE_CASES_COUNTRY := "time_series_covid19_active_cases_country".
End Constants.

Definition confirmed_url :=
  "https://raw.githubusercontent.com/CSSEGISandData/COVID-19/master/csse_covid_19_data/csse_covid_19_time_series/time_series_covid19_confirmed_global.csv".
Definition deaths_url :=
  "https://raw.githubusercontent.com/CSSEGISandData/COVID-19/master/csse_covid_19_data/csse_covid_19_time_series/time_series_covid19_deaths_global.csv".
Definition recovered_url :=
  "https://raw.githubusercontent.com/CSSEGISandData/COVID-19/master/csse_covid_19_data/csse_covid_19_time_series/time_series_covid19_recovered_global.csv".
Definition commits_url := "https://api.github.com/repos/CSSEGISandData/COVID-19/commits".

Definition cssegis_data : list (string * string) :=
  [ (Constants.TS_COVID19_CONFIRMED_GLOBAL, confirmed_url);
    (Constants.TS_COVID19_DEATHS_GLOBAL, deaths_url);
    (Constants.TS_COVID19_RECOVERED_GLOBAL, recovered_url) ].

(** The module-level default of [_last_src_data_update]. *)
Definition _last_src_data_update : string := "N/A".

(* ------------------------------------------------------------------ *)
(** ** Dictionaries (insertion ordered, as Python's) *)

Definition Dict (V : Type) : Type := list (string * V).

Fixpoint dict_set {V : Type} (k : string) (v : V) (d : Dict V) : Dict V :=
  match d with
  | [] => [(k, v)]
  | (k', v') :: d' =>
      if String.eqb k' k then (k, v) :: d' else (k', v') :: dict_set k v d'
  end.

Fixpoint dict_find {V : Type} (k : string) (d : Dict V) : option V :=
  match d with
  | [] => None
  | (k', v) :: d' => if String.eqb k' k then Some v else dict_find k d'
  end.

(** [d[k]]. *)
Definition dict_get {V : Type} (k : string) (d : Dict V) : Result V :=
  match dict_find k d with
  | Some v => inr v
  | None => inl (KeyError k)
  end.

(** The union of two dictionaries as the source writes it with the
    double-star unpacking: the entries of [d2] are set one by one in [d1]. *)
Definition dict_union {V : Type} (d1 d2 : Dict V) : Dict V :=
  fold_left (fun acc kv => dict_set (fst kv) (snd kv) acc) d2 d1.

(* ------------------------------------------------------------------ *)
(** ** Tables *)

(** A row of a raw wide table: the four identifying columns and one cell
    per date column.  A field that is empty in the CSV is [None]. *)
Record RawRow : Type := mkRawRow {
  raw_Province_State : option string;
  raw_Country_Region : option string;
  raw_Lat : Cell;
  raw_Long : Cell;
  raw_cells : list Cell
}.

Record RawTable : Type := mkRawTable {
  date_columns : list string;
  raw_rows : list RawRow
}.

(** A record of a long table, columns
    Province/State, Country/Region, Lat, Long, Date, Cases. *)
Record LongRow : Type := mkLongRow {
  Province_State : option string;
  Country_Region : option string;
  Lat : Cell;
  Long : Cell;
  Date : string;
  Cases : Cell
}.

Definition LongTable : Type := list LongRow.

(** The identifying columns of a record. *)
Definition IdVars : Type := (option string * option string * Cell * Cell)%type.

Definition raw_id_vars (r : RawRow) : IdVars :=
  (raw_Province_State r, raw_Country_Region r, raw_Lat r, raw_Long r).

Definition id_vars (r : LongRow) : IdVars :=
  (Province_State r, Country_Region r, Lat r, Long r).

(** A frame with a (Country/Region, Date) index of key type [K]. *)
Record FrameOf (K : Type) : Type := mkFrame {
  columns : list string;
  rows : list (K * list Cell)
}.
Arguments mkFrame {K} _ _.
Arguments columns {K} _.
Arguments rows {K} _.

(** The index after [pd.to_datetime]: country and timestamp. *)
Definition Key : Type := (string * Z)%type.
Definition Frame : Type := FrameOf Key.

Definition index {K : Type} (df : FrameOf K) : list K := map fst (rows df).

(** [DataFrame.rename(columns={oldname: newname})]. *)
Definition rename {K : Type} (oldname newname : string) (df : FrameOf K) : FrameOf K :=
  mkFrame (map (fun c => if String.eqb c oldname then newname else c) (columns df))
          (rows df).

(* ------------------------------------------------------------------ *)
(** ** clean_data *)

(** One block of [melt]: the column [name], whose cells are at position
    [j] of every row. *)
Definition melt_column (rs : list RawRow) (j : nat) (name : string) : LongTable :=
  map (fun r => mkLongRow (raw_Province_State r) (raw_Country_Region r)
                          (raw_Lat r) (raw_Long r) name (nth j (raw_cells r) NaN))
      rs.

Fixpoint melt_from (rs : list RawRow) (j : nat) (names : list string) : LongTable :=
  match names with
  | [] => []
  | name :: names' => melt_column rs j name ++ melt_from rs (S j) names'
  end.

(** [df_raw.melt(id_vars=[...], value_name="Cases", var_name="Date")]:
    the date columns are unpivoted one after the other, each over all
    rows. *)
Definition clean_data (df_raw : RawTable) : LongTable :=
  melt_from (raw_rows df_raw) 0 (date_columns df_raw).

(* ------------------------------------------------------------------ *)
(** ** key_to_case_type *)

Definition key_to_case_type (key : string) : string :=
  if contains "confirmed" key then "Confirmed"
  else if contains "deaths" key then "Deaths"
  else if contains "recovered" key then "Recovered"
  else "Unknown".

(* ------------------------------------------------------------------ *)
(** ** Sorting and grouping helpers *)

Section SortBy.
Context {A : Type} (leb : A -> A -> bool).

Fixpoint insert_by (x : A) (l : list A) : list A :=
  match l with
  | [] => [x]
  | y :: l' => if leb x y then x :: l else y :: insert_by x l'
  end.

(** A stable sort: equal elements keep their order. *)
Definition sort_by (l : list A) : list A := fold_right insert_by [] l.
End SortBy.

(** The distinct elements of a list. *)
Fixpoint dedup {A : Type} (eqb : A -> A -> bool) (l : list A) : list A :=
  match l with
  | [] => []
  | x :: l' => if existsb (eqb x) l' then dedup eqb l' else x :: dedup eqb l'
  end.

Fixpoint has_dup {A : Type} (eqb : A -> A -> bool) (l : list A) : bool :=
  match l with
  | [] => false
  | x :: l' => existsb (eqb x) l' || has_dup eqb l'
  end.

(** Position of the first occurrence (the length when there is none). *)
Fixpoint index_of (s : string) (l : list string) : nat :=
  match l with
  | [] => O
  | x :: l' => if String.eqb x s then O else S (index_of s l')
  end.

Definition StrKey : Type := (string * string)%type.

Definition str_key_eqb (a b : StrKey) : bool :=
  String.eqb (fst a) (fst b) && String.eqb (snd a) (snd b).

Definition str_key_leb (a b : StrKey) : bool :=
  String.ltb (fst a) (fst b) || (String.eqb (fst a) (fst b) && String.leb (snd a) (snd b)).

Definition key_eqb (a b : Key) : bool :=
  String.eqb (fst a) (fst b) && Z.eqb (snd a) (snd b).

(** Ascending by Country/Region, then by Date. *)
Definition key_leb (a b : Key) : bool :=
  String.ltb (fst a) (fst b) || (String.eqb (fst a) (fst b) && Z.leb (snd a) (snd b)).

Definition row_leb (a b : Key * list Cell) : bool := key_leb (fst a) (fst b).

(* ------------------------------------------------------------------ *)
(** ** country_data, up to the date index *)

(** The group of a record; a record without a country is in no group
    ([groupby] drops the rows whose key is missing). *)
Definition group_key (r : LongRow) : option StrKey :=
  option_map (fun country => (country, Date r)) (Country_Region r).

Definition in_group (k : StrKey) (r : LongRow) : bool :=
  match group_key r with
  | Some k' => str_key_eqb k' k
  | None => false
  end.

Definition group_keys (df_cleaned : LongTable) : list StrKey :=
  flat_map (fun r => match group_key r with Some k => [k] | None => [] end) df_cleaned.

(** [df_cleaned.groupby(["Country/Region", "Date"])["Cases"].sum()]
    followed by [reset_index] and [set_index] on the two key columns: one
    row per distinct key, in the sorted order of the keys (the dates still
    being the column labels of the raw table).  The sum is that of the
    dtype of the whole column [Cases]. *)
Definition groupby_sum (df_cleaned : LongTable) : FrameOf StrKey :=
  let dt := column_dtype (map Cases df_cleaned) in
  mkFrame ["Cases"]
    (map (fun k => (k, [group_sum dt (map Cases (filter (in_group k) df_cleaned))]))
         (sort_by str_key_leb (dedup str_key_eqb (group_keys df_cleaned)))).

(** [df_country.index.levels[1]]: the distinct date labels, sorted. *)
Definition date_levels (df : FrameOf StrKey) : list string :=
  sort_by String.leb (dedup String.eqb (map (fun r => snd (fst r)) (rows df))).

(* ------------------------------------------------------------------ *)
(** ** daily_data *)

Definition diff_cells (cs : list Cell) (previous : option (list Cell)) : list Cell :=
  match previous with
  | None => map (fun _ => NaN) cs
  | Some ps => map (fun cp => cell_sub (fst cp) (snd cp)) (combine cs ps)
  end.

(** [groupby(level=0).diff()]: every row minus the previous row of the
    same country, rows staying where they are; [prev] holds the last row
    seen of each country. *)
Fixpoint groupby_diff (prev : Dict (list Cell)) (rs : list (Key * list Cell))
  : list (Key * list Cell) :=
  match rs with
  | [] => []
  | (k, cs) :: rs' =>
      (k, diff_cells cs (dict_find (fst k) prev))
        :: groupby_diff (dict_set (fst k) cs prev) rs'
  end.

Definition daily_data (dfcountry : Frame) (oldname newname : string) : Frame :=
  let dfcountrydaily :=
    mkFrame (columns dfcountry)
            (map (fun r => (fst r, map (fillna (Int 0)) (snd r)))
                 (groupby_diff [] (rows dfcountry))) in
  rename oldname newname dfcountrydaily.

(* ------------------------------------------------------------------ *)
(** ** Left join on the index, column access *)

Definition overlaps (c : string) (others : list string) : bool :=
  existsb (String.eqb c) others.

(** [pd.merge(left, right, how="left", left_index=True, right_index=True)]:
    the rows of [left] in their order, each once per matching row of
    [right], or once with missing values when nothing matches; a column
    label present on both sides gets the suffix [_x] or [_y]. *)
Definition merge_left (left right : Frame) : Frame :=
  mkFrame
    (map (fun c => if overlaps c (columns right) then String.append c "_x" else c) (columns left)
     ++ map (fun c => if overlaps c (columns left) then String.append c "_y" else c) (columns right))
    (flat_map
       (fun l =>
          match filter (fun r => key_eqb (fst r) (fst l)) (rows right) with
          | [] => [(fst l, snd l ++ map (fun _ => NaN) (columns right))]
          | matches => map (fun r => (fst l, snd l ++ snd r)) matches
          end)
       (rows left)).

Fixpoint col_index (name : string) (cols : list string) : option nat :=
  match cols with
  | [] => None
  | c :: cols' =>
      if String.eqb c name then Some O
      else option_map S (col_index name cols')
  end.

(** [df[name]], read. *)
Definition get_column (name : string) (df : Frame) : Result (list Cell) :=
  match col_index name (columns df) with
  | None => inl (KeyError name)
  | Some j => inr (map (fun r => nth j (snd r) NaN) (rows df))
  end.

Fixpoint set_nth (j : nat) (v : Cell) (cs : list Cell) : list Cell :=
  match cs, j with
  | [], _ => []
  | _ :: cs', O => v :: cs'
  | c :: cs', S j' => c :: set_nth j' v cs'
  end.

(** [df[name] = values]: a new last column, or the column of that label
    overwritten. *)
Definition set_column (name : string) (values : list Cell) (df : Frame) : Frame :=
  match col_index name (columns df) with
  | None =>
      mkFrame (columns df ++ [name])
              (map (fun rv => (fst (fst rv), snd (fst rv) ++ [snd rv]))
                   (combine (rows df) values))
  | Some j =>
      mkFrame (columns df)
              (map (fun rv => (fst (fst rv), set_nth j (snd rv) (snd (fst rv))))
                   (combine (rows df) values))
  end.

(** Element-wise operations of two columns of one frame. *)
Definition series2 (f : Cell -> Cell -> Cell) (a b : list Cell) : list Cell :=
  map (fun xy => f (fst xy) (snd xy)) (combine a b).

(** A column taken out of a frame, with its dtype. *)
Definition Series : Type := (dtype * list Cell)%type.

Definition as_series (cs : list Cell) : Series := (column_dtype cs, cs).

(** [a + b] and [a - b] of two columns: int64 when both are, float64
    otherwise. *)
Definition series_add (a b : Series) : Series :=
  match fst a, fst b with
  | int64, int64 => (int64, series2 int64_add (snd a) (snd b))
  | _, _ => (float64, series2 cell_add (snd a) (snd b))
  end.

Definition series_sub (a b : Series) : Series :=
  match fst a, fst b with
  | int64, int64 => (int64, series2 int64_sub (snd a) (snd b))
  | _, _ => (float64, series2 cell_sub (snd a) (snd b))
  end.

(** [a / b]: always float64. *)
Definition series_div (a b : Series) : Series :=
  (float64, series2 cell_div (snd a) (snd b)).

(** [np.round(a, decimals)]: integers are left as they are. *)
Definition series_round (a : Series) (decimals : nat) : Series :=
  match fst a with
  | int64 => a
  | float64 => (float64, map (fun c => np_round c decimals) (snd a))
  end.

(* ------------------------------------------------------------------ *)
(** ** JSON values and Python subscripts on them *)

#[local] Unset Elimination Schemes.
Inductive json : Type :=
| JNull
| JBool (b : bool)
| JNumber (q : Q)
| JString (s : string)
| JArray (items : list json)
| JObject (fields : list (string * json)).
#[local] Set Elimination Schemes.

(** [x[0]]. *)
Definition subscript_0 (x : json) : Result json :=
  match x with
  | JArray (v :: _) => inr v
  | JArray [] => inl IndexError
  | JString (String c _) => inr (JString (String c EmptyString))
  | JString EmptyString => inl IndexError
  | JObject _ => inl (KeyError "0")
  | JNull | JBool _ | JNumber _ => inl TypeError
  end.

(** [x[key]] for a string [key]; of a repeated field [json.loads] keeps
    the last. *)
Definition subscript (key : string) (x : json) : Result json :=
  match x with
  | JObject fields => dict_get key (rev fields)
  | _ => inl TypeError
  end.

(* ------------------------------------------------------------------ *)
(** ** The remote resources and the monad of the pipeline *)

(** What a request returns at the moment of the call: the parsed CSV for
    [pd.read_csv(url)], the decoded JSON document for
    [json.loads(urlopen(req).read().decode("utf-8"))], or the exception
    raised on the way. *)
Record World : Type := mkWorld {
  csv_at : string -> Result RawTable;
  json_at : string -> Result json
}.

(** The URLs requested so far, oldest first. *)
Definition Log : Type := list string.

Definition M (A : Type) : Type := Log -> Result A * Log.

Definition ret {A : Type} (a : A) : M A := fun log => (inr a, log).

Definition bind {A B : Type} (m : M A) (f : A -> M B) : M B :=
  fun log =>
    match m log with
    | (inl e, log') => (inl e, log')
    | (inr a, log') => f a log'
    end.

Definition lift {A : Type} (r : Result A) : M A := fun log => (r, log).

Declare Scope pipeline_scope.
Delimit Scope pipeline_scope with pipeline.
Notation "x <- m ;; k" := (bind m (fun x => k))
  (at level 61, m at next level, right associativity) : pipeline_scope.
Notation "x <-? r ;; k" := (bindR r (fun x => k))
  (at level 61, r at next level, right associativity) : pipeline_scope.
Local Open Scope pipeline_scope.

Fixpoint foldM {A B : Type} (f : B -> A -> M B) (l : list A) (b : B) : M B :=
  match l with
  | [] => ret b
  | a :: l' => b' <- f b a ;; foldM f l' b'
  end.

Fixpoint foldR {A B : Type} (f : B -> A -> Result B) (l : list A) (b : B) : Result B :=
  match l with
  | [] => inr b
  | a :: l' => b' <-? f b a ;; foldR f l' b'
  end.

Definition pd_read_csv (w : World) (url : string) : M RawTable :=
  fun log => (csv_at w url, log ++ [url]).

Definition urlopen_json (w : World) (url : string) : M json :=
  fun log => (json_at w url, log ++ [url]).

(** [_get_last_commit_date(url)]. *)
Definition _get_last_commit_date (w : World) (url : string) : M json :=
  commit <- urlopen_json w url ;;
  lift (c0 <-? subscript_0 commit ;;
        c1 <-? subscript "commit" c0 ;;
        c2 <-? subscript "committer" c1 ;;
        subscript "date" c2).

(** A value of the dictionary [get_datasets] returns. *)
Inductive Table : Type :=
| LongT (t : LongTable)
| FrameT (f : Frame).

(** The returned pair: the datasets by identifier, and the last update. *)
Definition Bundle : Type := (Dict Table * json)%type.

(* ------------------------------------------------------------------ *)
(** ** The Consolidator (lines 82 to 129 of [get_datasets]) *)

Inductive Source : Type := FromCountry | FromDaily.

(** The right operands of the successive [pd.merge] calls, in order. *)
Definition consolidator_joins : list (Source * string) :=
  [ (FromDaily, Constants.TS_COVID19_DAILY_NEW_CONFIRMED_COUNTRY);
    (FromDaily, Constants.TS_COVID19_DAILY_NEW_DEATHS_COUNTRY);
    (FromCountry, Constants.TS_COVID19_DEATHS_COUNTRY);
    (FromCountry, Constants.TS_COVID19_RECOVERED_COUNTRY);
    (FromDaily, Constants.TS_COVID19_DAILY_NEW_RECOVERED_COUNTRY) ].

Definition source_dict (dfs_country dfs_daily : Dict Frame) (s : Source) : Dict Frame :=
  match s with
  | FromCountry => dfs_country
  | FromDaily => dfs_daily
  end.

Definition join_step (dfs_country dfs_daily : Dict Frame)
    (df_country_consol : Frame) (j : Source * string) : Result Frame :=
  right <-? dict_get (snd j) (source_dict dfs_country dfs_daily (fst j)) ;;
  inr (merge_left df_country_consol right).

Definition merge_all (dfs_country dfs_daily : Dict Frame) : Result Frame :=
  confirmed <-? dict_get Constants.TS_COVID19_CONFIRMED_COUNTRY dfs_country ;;
  foldR (join_step dfs_country dfs_daily) consolidator_joins confirmed.

Definition derived_columns (df0 : Frame) : Result Frame :=
  confirmed <-? get_column "Total Confirmed" df0 ;;
  deaths <-? get_column "Total Deaths" df0 ;;
  recovered <-? get_column "Total Recovered" df0 ;;
  let df1 :=
    set_column "Total Active Cases"
      (snd (series_sub (series_sub (as_series confirmed) (as_series deaths))
                       (as_series recovered))) df0 in
  recovered1 <-? get_column "Total Recovered" df1 ;;
  recovered1' <-? get_column "Total Recovered" df1 ;;
  deaths1 <-? get_column "Total Deaths" df1 ;;
  let df2 :=
    set_column "Share of Recovered - Closed Cases"
      (snd (series_round
              (series_div (as_series recovered1)
                          (series_add (as_series recovered1') (as_series deaths1))) 2))
      df1 in
  deaths2 <-? get_column "Total Deaths" df2 ;;
  confirmed2 <-? get_column "Total Confirmed" df2 ;;
  inr (set_column "Death to Cases Ratio"
         (snd (series_round (series_div (as_series deaths2) (as_series confirmed2)) 3))
         df2).

Definition consolidate (dfs_country dfs_daily : Dict Frame) : Result Frame :=
  df_country_consol <-? merge_all dfs_country dfs_daily ;;
  derived_columns df_country_consol.

(* ------------------------------------------------------------------ *)
(** ** country_data, get_datasets and the memoised entry point *)

Section Pipeline.

(** [pd.to_datetime] on an index of date labels: the timestamps, or no
    result when it raises.  The parser belongs to pandas; the pipeline
    is stated for any. *)
Variable to_datetime : list string -> option (list Z).

(** [df_country.index.set_levels([levels[0], pd.to_datetime(levels[1])])]:
    the codes of the rows are kept and the second level is replaced by
    the parsed dates.  [set_levels] verifies the new index: the level
    must be long enough for the codes, and its values must be unique. *)
Definition set_date_level (df : FrameOf StrKey) : Result Frame :=
  let levels := date_levels df in
  match to_datetime levels with
  | None => inl (ValueError "to_datetime")
  | Some dates =>
      if Nat.ltb (List.length dates) (List.length levels)
      then inl (ValueError "code max >= length of level")
      else if has_dup Z.eqb dates
      then inl (ValueError "Level values must be unique")
      else inr (mkFrame (columns df)
                  (map (fun r => ((fst (fst r),
                                   nth (index_of (snd (fst r)) levels) dates 0),
                                  snd r))
                       (rows df)))
  end.

Definition country_data (df_cleaned : LongTable) (oldname newname : string)
  : Result Frame :=
  let df_country := groupby_sum df_cleaned in
  df_country <-? set_date_level df_country ;;
  let df_country := mkFrame (columns df_country) (sort_by row_leb (rows df_country)) in
  inr (rename oldname newname df_country).

(** Lines 58 to 65: the three CSV resources, one after the other. *)
Definition load_global (w : World) : M (Dict LongTable) :=
  foldM (fun dfs_global data =>
           let data_id := fst data in
           let data_url := snd data in
           df_raw <- pd_read_csv w data_url ;;
           let df_clean := clean_data df_raw in
           ret (dict_set data_id df_clean dfs_global))
        cssegis_data [].

(** Lines 67 to 71. *)
Definition build_country (dfs_global : Dict LongTable) : Result (Dict Frame) :=
  foldR (fun dfs_country kv =>
           let df_key := fst kv in
           df <-? dict_get df_key dfs_global ;;
           df_country <-? country_data df "Cases"
                            (percent_s "Total " (key_to_case_type df_key)) ;;
           inr (dict_set (replace "global" "country" df_key) df_country dfs_country))
        dfs_global [].

(** Lines 73 to 80. *)
Definition build_daily (dfs_country : Dict Frame) : Result (Dict Frame) :=
  foldR (fun dfs_daily kv =>
           let df_key := fst kv in
           let case_type := key_to_case_type df_key in
           let old_colname := percent_s "Total " case_type in
           let new_colname := percent_s "Daily New " case_type in
           df <-? dict_get df_key dfs_country ;;
           inr (dict_set (replace "_covid19_" "_covid19_daily_new_" df_key)
                         (daily_data df old_colname new_colname) dfs_daily))
        dfs_country [].

Definition tables_of {A : Type} (inj : A -> Table) (d : Dict A) : Dict Table :=
  map (fun kv => (fst kv, inj (snd kv))) d.

Definition get_datasets (w : World) : M Bundle :=
  dfs_global <- load_global w ;;
  dfs_country <- lift (build_country dfs_global) ;;
  dfs_daily <- lift (build_daily dfs_country) ;;
  df_country_consol <- lift (consolidate dfs_country dfs_daily) ;;
  let dfs_country_consol :=
    dict_set Constants.TS_COVID19_CONSOLIDATED_COUNTRY df_country_consol
      (dict_set Constants.TS_COVID19_ACTIVE_CASES_COUNTRY df_country_consol []) in
  last_update <- _get_last_commit_date w commits_url ;;
  ret (dict_union
         (dict_union
            (dict_union (tables_of LongT dfs_global) (tables_of FrameT dfs_country))
            (tables_of FrameT dfs_daily))
         (tables_of FrameT dfs_country_consol),
       last_update).

(** *** The result cache *)

(** [timeout=360] of the decorator on line 38. *)
Definition TTL : nat := 360.

Record CacheEntry : Type := mkEntry {
  stored_at : nat;
  stored : Bundle
}.

Inductive CacheStatus : Type := EMPTY | FRESH | STALE.

(** Modelled from the spec: the states of the cache of section 4.6, which
    flask_caching (not among the sources) implements.  An entry is FRESH
    while its age is below the TTL and STALE from then on. *)
Definition cache_status (now : nat) (slot : option CacheEntry) : CacheStatus :=
  match slot with
  | None => EMPTY
  | Some e => if Nat.ltb (now - stored_at e) TTL then FRESH else STALE
  end.

(** The process: the single cache slot and the requests made so far. *)
Record Process : Type := mkProcess {
  slot : option CacheEntry;
  fetch_log : Log
}.

(** Modelled from the spec: the decorator [cache.memoize(timeout=360)]
    of line 38 is flask_caching's and its code is not among the sources.
    Section 4.6: on EMPTY or STALE the pipeline runs and its result is
    stored with the time of the call; on FRESH (age below the TTL) the
    stored bundle is returned without recomputation.  An invocation that
    raises stores nothing. *)
Definition memoized_get_datasets (w : World) (now : nat) (p : Process)
  : Result Bundle * Process :=
  match cache_status now (slot p), slot p with
  | FRESH, Some e => (inr (stored e), p)
  | _, _ =>
      match get_datasets w (fetch_log p) with
      | (inr b, log') => (inr b, mkProcess (Some (mkEntry now b)) log')
      | (inl e, log') => (inl e, mkProcess (slot p) log')
      end
  end.

End Pipeline.

(* ------------------------------------------------------------------ *)
(** ** A date parser and sample data for concrete runs *)

(** The labels of the CSSE files are month/day/two-digit year. *)
Definition digit_of (c : ascii) : option Z :=
  let n := Z.of_nat (nat_of_ascii c) in
  if (48 <=? n) && (n <=? 57) then Some (n - 48) else None.

Fixpoint mdy_fields (s : string) (cur : option Z) : option (list Z) :=
  match s with
  | EmptyString =>
      match cur with
      | Some n => Some [n]
      | None => None
      end
  | String c s' =>
      if Ascii.eqb c "/"%char then
        match cur with
        | Some n => option_map (cons n) (mdy_fields s' None)
        | None => None
        end
      else
        match digit_of c with
        | Some d =>
            mdy_fields s' (Some (10 * match cur with Some n => n | None => 0 end + d))
        | None => None
        end
  end.

(** The day number of a label, counting 31 days a month: an order
    embedding of the calendar. *)
Definition mdy_date (s : string) : option Z :=
  match mdy_fields s None with
  | Some [m; d; y] => Some (((2000 + y) * 12 + (m - 1)) * 31 + (d - 1))
  | _ => None
  end.

Fixpoint mdy_to_datetime (labels : list string) : option (list Z) :=
  match labels with
  | [] => Some []
  | s :: labels' =>
      match mdy_date s, mdy_to_datetime labels' with
      | Some d, Some ds => Some (d :: ds)
      | _, _ => None
      end
  end.

Definition sample_dates : list string := ["1/22/20"; "1/23/20"; "1/24/20"].

(** The end-to-end example of the specification: country A with one
    location, country B with two provinces. *)
Definition sample_raw : RawTable :=
  mkRawTable sample_dates
    [ mkRawRow None (Some "A") (Int 0) (Int 0) [Int 1; Int 2; Int 4];
      mkRawRow (Some "p1") (Some "B") (Int 0) (Int 0) [Int 0; Int 1; Int 1];
      mkRawRow (Some "p2") (Some "B") (Int 0) (Int 0) [Int 0; Int 0; Int 1] ].

(** A table with a country the other tables do not have. *)
Definition sample_raw_confirmed : RawTable :=
  mkRawTable sample_dates
    [ mkRawRow None (Some "A") (Int 0) (Int 0) [Int 1; Int 2; Int 4];
      mkRawRow (Some "p1") (Some "B") (Int 0) (Int 0) [Int 0; Int 1; Int 1];
      mkRawRow (Some "p2") (Some "B") (Int 0) (Int 0) [Int 0; Int 0; Int 1];
      mkRawRow None (Some "C") (Int 0) (Int 0) [Int 0; Int 0; Int 0] ].

Definition sample_raw_deaths : RawTable :=
  mkRawTable sample_dates
    [ mkRawRow None (Some "A") (Int 0) (Int 0) [Int 0; Int 0; Int 1];
      mkRawRow None (Some "C") (Int 0) (Int 0) [Int 0; Int 1; Int 3] ].

Definition sample_commits : json :=
  JArray [ JObject [("sha", JString "0f1e");
                    ("commit",
                     JObject [("committer",
                               JObject [("name", JString "GitHub");
                                        ("date", JString "2020-04-09T01:00:00Z")])])] ].

Definition sample_csv (url : string) : Result RawTable :=
  if String.eqb url confirmed_url then inr sample_raw_confirmed
  else if String.eqb url deaths_url then inr sample_raw_deaths
  else if String.eqb url recovered_url then inr sample_raw
  else inl (HTTPError url 404).

Definition sample_world : World :=
  mkWorld sample_csv
          (fun url => if String.eqb url commits_url then inr sample_commits
                      else inl (HTTPError url 404)).

(** The same CSV resources with the commits endpoint out of reach. *)
Definition world_without_metadata : World :=
  mkWorld sample_csv (fun url => inl (URLError url)).

(** The commits endpoint answering with an empty list. *)
Definition world_empty_commits : World :=
  mkWorld sample_csv (fun url => inr (JArray [])).

(** The deaths resource out of reach. *)
Definition world_without_deaths : World :=
  mkWorld (fun url => if String.eqb url deaths_url then inl (URLError url)
                      else sample_csv url)
          (json_at sample_world).

Definition start : Process := mkProcess None [].

(* ------------------------------------------------------------------ *)
(** ** Definitions used to state the properties *)

(** An integer that float64 holds as it is: at most 2^53 in magnitude. *)
Definition in_float (z : Z) : Prop := Z.abs z <= 2 ^ 53.



Definition zsum (l : list Z) : Z := fold_right Z.add 0 l.



(** The key of a record once the date labels [levels] are parsed to
    [dates]; none for a record without a country. *)
Definition parsed_key (levels : list string) (dates : list Z) (r : LongRow) : option Key :=
  option_map (fun country => (country, nth (index_of (Date r) levels) dates 0))
             (Country_Region r).

(** The records of a key. *)
Definition key_group (levels : list string) (dates : list Z) (k : Key)
    (df_cleaned : LongTable) : LongTable :=
  filter (fun r => match parsed_key levels dates r with
                   | Some k' => key_eqb k' k
                   | None => false
                   end) df_cleaned.

(** The three derived columns of the Consolidator, from the columns of
    the totals. *)
Definition active_cases (confirmed deaths recovered : list Cell) : list Cell :=
  snd (series_sub (series_sub (as_series confirmed) (as_series deaths))
                  (as_series recovered)).

Definition recovered_share (recovered deaths : list Cell) : list Cell :=
  snd (series_round
         (series_div (as_series recovered)
                     (series_add (as_series recovered) (as_series deaths))) 2).

Definition death_ratio (deaths confirmed : list Cell) : list Cell :=
  snd (series_round (series_div (as_series deaths) (as_series confirmed)) 3).

(** A column whose dtype is int64 holds integers of that range only. *)
Definition series_ok (a : Series) : Prop :=
  fst a = int64 -> Forall (fun c => is_int64 c = true) (snd a).

(** A total small enough for the sums and differences of three of them
    to be held by float64 as they are. *)
Definition small (z : Z) : Prop := Z.abs z <= 2 ^ 51.



(** All rows of a frame have one cell per column. *)
Definition rectangular {K : Type} (df : FrameOf K) : Prop :=
  Forall (fun r => List.length (snd r) = List.length (columns df)) (rows df).

Definition of_country (c : string) (r : Key * list Cell) : bool :=
  String.eqb (fst (fst r)) c.

(** The cells of column [j] in the partition of country [c], in row
    order. *)
Definition country_column (c : string) (j : nat) (rs : list (Key * list Cell))
  : list Cell :=
  map (fun r => nth j (snd r) NaN) (filter (of_country c) rs).




(** What a left join adds to the row of key [k]: the cells of the
    matching row of [right], or one missing value per column of [right]. *)
Definition joined_cells (k : Key) (right : Frame) : list Cell :=
  match filter (fun r => key_eqb (fst r) k) (rows right) with
  | [] => map (fun _ => NaN) (columns right)
  | m :: _ => snd m
  end.


(** The dictionaries of the sample world, stage by stage. *)
Definition sample_dfs_global : Dict LongTable :=
  [ (Constants.TS_COVID19_CONFIRMED_GLOBAL, clean_data sample_raw_confirmed);
    (Constants.TS_COVID19_DEATHS_GLOBAL, clean_data sample_raw_deaths);
    (Constants.TS_COVID19_RECOVERED_GLOBAL, clean_data sample_raw) ].

Definition sample_dfs_country : Dict Frame :=
  Eval vm_compute in
    match build_country mdy_to_datetime sample_dfs_global with
    | inr d => d
    | inl _ => []
    end.

Definition sample_dfs_daily : Dict Frame :=
  Eval vm_compute in
    match build_daily sample_dfs_country with
    | inr d => d
    | inl _ => []
    end.

Definition sample_merged : Frame :=
  Eval vm_compute in
    match merge_all sample_dfs_country sample_dfs_daily with
    | inr df => df
    | inl _ => mkFrame [] []
    end.

Definition sample_consolidated : Frame :=
  Eval vm_compute in
    match derived_columns sample_merged with
    | inr df => df
    | inl _ => mkFrame [] []
    end.

(** Country tables with a total beyond 2^53, and a country the deaths
    and recovered tables do not have. *)
Definition large_dfs_country : Dict Frame :=
  [ (Constants.TS_COVID19_CONFIRMED_COUNTRY,
     mkFrame ["Total Confirmed"] [(("A", 0), [Int (2 ^ 53 + 1)]); (("B", 0), [Int 1])]);
    (Constants.TS_COVID19_DEATHS_COUNTRY,
     mkFrame ["Total Deaths"] [(("A", 0), [Int 0])]);
    (Constants.TS_COVID19_RECOVERED_COUNTRY,
     mkFrame ["Total Recovered"] [(("A", 0), [Int 0])]) ].

Definition large_dfs_daily : Dict Frame :=
  Eval vm_compute in
    match build_daily large_dfs_country with
    | inr d => d
    | inl _ => []
    end.

(** Every frame of a dictionary has one cell per column in every row. *)
Definition rectangular_dict (d : Dict Frame) : Prop :=
  forall k f, dict_find k d = Some f -> rectangular f.

(** What [_get_last_commit_date] makes of the response of the commits
    endpoint. *)
Definition commit_date (response : Result json) : Result json :=
  commit <-? response ;;
  c0 <-? subscript_0 commit ;;
  c1 <-? subscript "commit" c0 ;;
  c2 <-? subscript "committer" c1 ;;
  subscript "date" c2.

(** The requests of one run of the pipeline, in order. *)
Definition fetch_cycle : list string := map snd cssegis_data ++ [commits_url].

(** The dictionary [get_datasets] returns, from those of its stages. *)
Definition bundle_tables (dfs_global : Dict LongTable) (dfs_country dfs_daily : Dict Frame)
    (df_country_consol : Frame) : Dict Table :=
  dict_union
    (dict_union
       (dict_union (tables_of LongT dfs_global) (tables_of FrameT dfs_country))
       (tables_of FrameT dfs_daily))
    (tables_of FrameT
       (dict_set Constants.TS_COVID19_CONSOLIDATED_COUNTRY df_country_consol
          (dict_set Constants.TS_COVID19_ACTIVE_CASES_COUNTRY df_country_consol []))).

Definition sample_confirmed_country : Frame :=
  Eval vm_compute in
    match dict_find Constants.TS_COVID19_CONFIRMED_COUNTRY sample_dfs_country with
    | Some f => f
    | None => mkFrame [] []
    end.

(** The bundle of the sample world, and the process after a first call at
    time 0. *)
Definition sample_bundle : Bundle :=
  Eval vm_compute in
    match fst (get_datasets mdy_to_datetime sample_world []) with
    | inr b => b
    | inl _ => ([], JNull)
    end.

Definition after_first_call : Process :=
  mkProcess (Some (mkEntry 0 sample_bundle)) fetch_cycle.

(** The value of a one-column table at a key: missing when the table has
    no row for the key. *)
Definition value_at (t : Frame) (k : Key) : Cell := nth 0 (joined_cells k t) NaN.

(* ------------------------------------------------------------------ *)
(** ** The callbacks of [dash_covid.py] *)

Definition key_to_colname (key : string) : string :=
  if contains "confirmed" key then "Confirmed"
  else if contains "deaths" key then "Deaths"
  else if contains "recovered" key then "Recoveries"
  else if contains "active" key then "Active Cases"
  else "Unknown".

(** [df["Date"].max()] on a frame whose index was reset: no date for an
    empty frame. *)
Definition later_date (m : option Z) (r : Key * list Cell) : option Z :=
  match m with
  | None => Some (snd (fst r))
  | Some x => Some (Z.max x (snd (fst r)))
  end.

Definition max_date (df : Frame) : option Z := fold_left later_date (rows df) None.

(** [df[df["Date"] == max_date]]. *)
Definition df_max_date (df : Frame) : Frame :=
  mkFrame (columns df)
          (match max_date df with
           | None => []
           | Some m => filter (fun r => Z.eqb (snd (fst r)) m) (rows df)
           end).

(** The same selection on a long table, whose dates are still labels and
    compare as strings. *)
Definition max_label (t : LongTable) : option string :=
  fold_left (fun m r => match m with
                        | None => Some (Date r)
                        | Some x => Some (if String.leb x (Date r) then Date r else x)
                        end)
            t None.

(** [df.reset_index()]: the index becomes the positions 0, 1, ... and the
    two key levels become columns; here the position is put before the
    key. *)
Definition reset_index (df : Frame) : FrameOf (nat * Key) :=
  mkFrame (columns df)
          (map (fun ir => ((fst ir, fst (snd ir)), snd (snd ir)))
               (combine (seq 0 (List.length (rows df))) (rows df))).

(** [df[df["Date"] == max_date]] after [reset_index]: the rows keep the
    positions they had. *)
Definition select_date (m : option Z) (df : FrameOf (nat * Key)) : FrameOf (nat * Key) :=
  mkFrame (columns df)
          (match m with
           | None => []
           | Some d => filter (fun r => Z.eqb (snd (snd (fst r))) d) (rows df)
           end).

(** What the callback serialises: a frame or a long table, by position. *)
Inductive Selection : Type :=
| SelectedFrame (f : FrameOf (nat * Key))
| SelectedLong (t : list (nat * LongRow)).

Section Callbacks.

(** [DataFrame.to_json()], which belongs to pandas: the callback is
    stated for any. *)
Variable to_json : Selection -> string.

(** The callback [filter_dataset(value)], given the bundle that its call
    of [get_datasets()] returned. *)
Definition filter_dataset (datasets : Bundle) (value : string) : Result (string * string) :=
  df <-? dict_get Constants.TS_COVID19_CONSOLIDATED_COUNTRY (fst datasets) ;;
  inr (value,
       to_json
         match df with
         | FrameT f => SelectedFrame (select_date (max_date f) (reset_index f))
         | LongT t =>
             SelectedLong
               (match max_label t with
                | None => []
                | Some m => filter (fun ir => String.eqb (Date (snd ir)) m)
                                   (combine (seq 0 (List.length t)) t)
                end)
         end).

End Callbacks.


(* ------------------------------------------------------------------ *)
(** ** table_from_dataframe *)

(** A frame as the rendering helpers see it: column labels and rows of
    cells of any kind. *)
Record DisplayFrame (V : Type) : Type := mkDisplay {
  d_columns : list string;
  d_rows : list (list V)
}.
Arguments mkDisplay {V} _ _.
Arguments d_columns {V} _.
Arguments d_rows {V} _.

(** The components of [dash_html_components] that the helper builds. *)
#[local] Unset Elimination Schemes.
Inductive Html (V : Type) : Type :=
| Th (label : string)
| Td (cell : V)
| Tr (children : list (Html V))
| Thead (child : Html V)
| Tbody (children : list (Html V)) (style : Dict string)
| HtmlTable (className : string) (children : list (Html V)).
#[local] Set Elimination Schemes.
Arguments Th {V} _.
Arguments Td {V} _.
Arguments Tr {V} _.
Arguments Thead {V} _.
Arguments Tbody {V} _ _.
Arguments HtmlTable {V} _ _.

(** [dataframe.iloc[i][col]]: row [i] by position, then the cell under the
    label [col] (pandas may widen the dtype of the row, the value is the
    same); [missing] stands for what a rectangular frame never needs.
    [max_rows] is a count: the callers pass 10 and 500. *)
Definition iloc_cell {V : Type} (missing : V) (dataframe : DisplayFrame V)
    (i : nat) (col : string) : V :=
  nth (index_of col (d_columns dataframe)) (nth i (d_rows dataframe) []) missing.

Definition table_from_dataframe {V : Type} (missing : V) (dataframe : DisplayFrame V)
    (max_rows : nat) (headers : bool) (table_style : Dict string) : Html V :=
  let table_rows :=
    (if headers then [Thead (Tr (map Th (d_columns dataframe)))] else [])
    ++ [Tbody
          (map (fun i =>
                  Tr (map (fun col => Td (iloc_cell missing dataframe i col))
                          (d_columns dataframe)))
               (seq 0 (Nat.min (List.length (d_rows dataframe)) max_rows)))
          table_style] in
  HtmlTable "table table-sm" table_rows.

(** The rows of the body of a rendered table. *)
Definition body_rows {V : Type} (table : Html V) : list (Html V) :=
  match table with
  | HtmlTable _ children =>
      flat_map (fun child => match child with
                             | Tbody trs _ => trs
                             | _ => []
                             end) children
  | _ => []
  end.

(** A serialiser for concrete runs: the countries of the selection, one
    per line. *)
Definition countries_to_json (sel : Selection) : string :=
  match sel with
  | SelectedFrame f =>
      String.concat (String (ascii_of_nat 10) EmptyString)
                    (map (fun r => fst (snd (fst r))) (rows f))
  | SelectedLong t =>
      String.concat (String (ascii_of_nat 10) EmptyString)
                    (map (fun ir => match Country_Region (snd ir) with
                                    | Some c => c
                                    | None => EmptyString
                                    end) t)
  end.

(** A parser that gives every label the same timestamp. *)
Definition epoch_to_datetime (labels : list string) : option (list Z) :=
  Some (map (fun _ => 0) labels).

Definition sample_record (date : string) (cases : Z) : LongRow :=
  mkLongRow None (Some "A") (Int 0) (Int 0) date (Int cases).

(** A frame for the rendering helper. *)
Definition sample_display : DisplayFrame string :=
  mkDisplay ["Total Confirmed"; "Country/Region"]
            [["4"; "A"]; ["2"; "B"]; ["0"; "C"]].

(* ------------------------------------------------------------------ *)
(** * Properties *)

(** ** Cells *)

Lemma is_int_Num (q : Q) : is_int (Num q) = true -> q = inject_Z (Qnum q).
Proof.
  destruct q as [n d]; unfold is_int; cbn [Qden Qnum]. intros H.
  apply Pos.eqb_eq in H. subst d. reflexivity.
Qed.











Lemma round64_not_nan (q : Q) : is_nan (round64 q) = false.
Proof.
  unfold round64. destruct (Z.abs (Qnum q) =? 0); [reflexivity |].
  match goal with |- context [if ?b then _ else _] => destruct b end; reflexivity.
Qed.

Lemma to_float_nan (c : Cell) : is_nan (to_float c) = is_nan c.
Proof. destruct c; try reflexivity. apply round64_not_nan. Qed.





Lemma cell_mul_nan_l (a b : Cell) : is_nan a = true -> cell_mul a b = NaN.
Proof.
  intros H. unfold cell_mul. rewrite <- (to_float_nan a) in H.
  destruct (to_float a); simpl in H; try discriminate; reflexivity.
Qed.




Lemma is_int_inv (c : Cell) : is_int c = true -> exists z, c = Int z.
Proof.
  destruct c as [| s | q]; try discriminate.
  intros H. exists (Qnum q). unfold Int. f_equal.
  now apply is_int_Num.
Qed.

Lemma fillna_not_nan (c : Cell) : is_nan (fillna (Int 0) c) = false.
Proof. destruct c; reflexivity. Qed.

(** ** clean_data *)

Lemma melt_column_length rs j name :
  List.length (melt_column rs j name) = List.length rs.
Proof. unfold melt_column. apply length_map. Qed.

Lemma melt_column_ids rs j name :
  map id_vars (melt_column rs j name) = map raw_id_vars rs.
Proof.
  unfold melt_column. rewrite map_map. apply map_ext. intros r. reflexivity.
Qed.

Lemma melt_from_length rs names : forall j,
  List.length (melt_from rs j names) = (List.length rs * List.length names)%nat.
Proof.
  induction names as [| name names IH]; intros j; simpl.
  - lia.
  - rewrite length_app, melt_column_length, IH. lia.
Qed.

Lemma melt_from_ids rs names : forall j,
  map id_vars (melt_from rs j names)
  = List.concat (repeat (map raw_id_vars rs) (List.length names)).
Proof.
  induction names as [| name names IH]; intros j; simpl.
  - reflexivity.
  - rewrite map_app, melt_column_ids, IH. reflexivity.
Qed.

Lemma in_concat_repeat {A : Type} (l : list A) (n : nat) (x : A) :
  In x (List.concat (repeat l n)) <-> In x l /\ n <> O.
Proof.
  induction n as [| n IH]; simpl.
  - intuition.
  - rewrite in_app_iff, IH. intuition congruence.
Qed.

(** The block of date column [j] holds, row by row, that column's label
    and cell. *)
Lemma melt_from_nth rs names : forall j0 i j (d : LongRow) (r : RawRow),
  (i < List.length rs)%nat -> (j < List.length names)%nat ->
  nth_error rs i = Some r ->
  nth (j * List.length rs + i) (melt_from rs j0 names) d
  = mkLongRow (raw_Province_State r) (raw_Country_Region r) (raw_Lat r) (raw_Long r)
              (nth j names EmptyString) (nth (j0 + j) (raw_cells r) NaN).
Proof.
  induction names as [| name names IH]; intros j0 i j d r Hi Hj Hr; simpl in Hj.
  - lia.
  - simpl melt_from. destruct j as [| j].
    + simpl. rewrite app_nth1 by (rewrite melt_column_length; exact Hi).
      unfold melt_column.
      rewrite (nth_indep _ d (mkLongRow (raw_Province_State r) (raw_Country_Region r)
                 (raw_Lat r) (raw_Long r) name (nth j0 (raw_cells r) NaN)))
        by (rewrite length_map; exact Hi).
      rewrite (map_nth (fun r0 => mkLongRow (raw_Province_State r0) (raw_Country_Region r0)
                 (raw_Lat r0) (raw_Long r0) name (nth j0 (raw_cells r0) NaN)) rs r i) at 1.
      rewrite Nat.add_0_r.
      apply nth_error_nth with (d := r) in Hr. rewrite Hr. reflexivity.
    + rewrite app_nth2 by (rewrite melt_column_length; simpl; lia).
      rewrite melt_column_length.
      replace (S j * List.length rs + i - List.length rs)%nat
        with (j * List.length rs + i)%nat by (simpl; lia).
      rewrite (IH (S j0) i j d r Hi) by (assumption || lia).
      simpl. replace (j0 + S j)%nat with (S (j0 + j)) by lia. reflexivity.
Qed.

(** C6. For every raw wide table with n date columns, [clean_data] yields
    rows times n records; its identifying columns are the table's own,
    verbatim and in order, repeated once per date column (an empty
    sub-location stays empty), so an identifying tuple occurs in the output
    exactly when it occurs in the input and there is a date column. *)
Theorem clean_data_shape (df_raw : RawTable) :
  List.length (clean_data df_raw)
  = (List.length (raw_rows df_raw) * List.length (date_columns df_raw))%nat
  /\ map id_vars (clean_data df_raw)
     = List.concat (repeat (map raw_id_vars (raw_rows df_raw))
                      (List.length (date_columns df_raw)))
  /\ (forall ids : IdVars,
        In ids (map id_vars (clean_data df_raw))
        <-> In ids (map raw_id_vars (raw_rows df_raw)) /\ date_columns df_raw <> []).
Proof.
  unfold clean_data. split; [apply melt_from_length |].
  split; [apply melt_from_ids |].
  intros ids. rewrite melt_from_ids, in_concat_repeat.
  destruct (date_columns df_raw); simpl; intuition congruence.
Qed.

(** ** Dictionaries *)

Lemma dict_find_set_same {V : Type} (k : string) (v : V) (d : Dict V) :
  dict_find k (dict_set k v d) = Some v.
Proof.
  induction d as [| [k' v'] d IH]; simpl.
  - now rewrite String.eqb_refl.
  - destruct (String.eqb k' k) eqn:E; simpl.
    + now rewrite String.eqb_refl.
    + now rewrite E.
Qed.

Lemma dict_find_set_other {V : Type} (k k' : string) (v : V) (d : Dict V) :
  k <> k' -> dict_find k (dict_set k' v d) = dict_find k d.
Proof.
  intros Hne. induction d as [| [k0 v0] d IH]; simpl.
  - destruct (String.eqb k' k) eqn:E; [apply String.eqb_eq in E; congruence | reflexivity].
  - destruct (String.eqb k0 k') eqn:E; simpl.
    + apply String.eqb_eq in E. subst k0.
      destruct (String.eqb k' k) eqn:E'; [apply String.eqb_eq in E'; congruence |].
      reflexivity.
    + destruct (String.eqb k0 k); [reflexivity | exact IH].
Qed.

(** ** daily_data *)

Lemma nth_map_lt {A B : Type} (f : A -> B) (l : list A) (j : nat) (d : B) (d' : A) :
  (j < List.length l)%nat -> nth j (map f l) d = f (nth j l d').
Proof.
  intros H. rewrite (nth_indep _ d (f d')) by (now rewrite length_map).
  apply map_nth.
Qed.

Lemma groupby_diff_index (rs : list (Key * list Cell)) : forall prev,
  map fst (groupby_diff prev rs) = map fst rs.
Proof.
  induction rs as [| [k cs] rs IH]; intros prev; simpl.
  - reflexivity.
  - now rewrite IH.
Qed.



Lemma diff_cells_length (cs : list Cell) (previous : option (list Cell)) :
  (forall ps, previous = Some ps -> List.length ps = List.length cs) ->
  List.length (diff_cells cs previous) = List.length cs.
Proof.
  intros H. destruct previous as [ps |]; simpl.
  - rewrite length_map, length_combine, (H ps eq_refl). lia.
  - apply length_map.
Qed.







Lemma daily_data_rows (dfcountry : Frame) (oldname newname : string) :
  rows (daily_data dfcountry oldname newname)
  = map (fun r => (fst r, map (fillna (Int 0)) (snd r)))
        (groupby_diff [] (rows dfcountry)).
Proof. reflexivity. Qed.

Lemma daily_data_index (dfcountry : Frame) (oldname newname : string) :
  index (daily_data dfcountry oldname newname) = index dfcountry.
Proof.
  unfold index. rewrite daily_data_rows, map_map. simpl.
  apply groupby_diff_index.
Qed.




(** C2 as stated fails beyond 2^53: the difference of the totals 0 and
    2^53 + 1 is computed in float64, where it is 2^53, so the total is
    not the total before it plus the daily value. *)
Lemma daily_data_round_trip_breaks :
  let dfcountry := mkFrame ["Total Confirmed"]
                     [(("A", 0), [Int 0]); (("A", 1), [Int (2 ^ 53 + 1)])] in
  rows (daily_data dfcountry "Total Confirmed" "Daily New Confirmed")
  = [(("A", 0), [Int 0]); (("A", 1), [Int (2 ^ 53)])]
  /\ 2 ^ 53 + 1 <> 0 + 2 ^ 53
  /\ Int (2 ^ 53 + 1) <> cell_add (Int 0) (Int (2 ^ 53)).
Proof.
  split; [vm_compute; reflexivity |].
  split; [lia |].
  vm_compute. discriminate.
Qed.

(** C10. The frame [daily_data] returns has no missing value: it is the
    per-country difference with every not-a-number cell, whatever produced
    it, replaced by 0. *)
Theorem daily_data_no_missing (dfcountry : Frame) (oldname newname : string) :
  Forall (fun r => Forall (fun c => is_nan c = false) (snd r))
         (rows (daily_data dfcountry oldname newname))
  /\ rows (daily_data dfcountry oldname newname)
     = map (fun r => (fst r, map (fun c => if is_nan c then Int 0 else c) (snd r)))
           (groupby_diff [] (rows dfcountry)).
Proof.
  split; [| reflexivity].
  rewrite daily_data_rows. apply Forall_forall. intros r Hr.
  apply in_map_iff in Hr. destruct Hr as [r0 [<- _]]. simpl.
  apply Forall_forall. intros x Hx. apply in_map_iff in Hx.
  destruct Hx as [x0 [<- _]]. apply fillna_not_nan.
Qed.

(** ** Sorting and the order of keys *)

Section SortFacts.
Context {A : Type} (leb : A -> A -> bool).

Lemma insert_by_perm (x : A) (l : list A) : Permutation (insert_by leb x l) (x :: l).
Proof.
  induction l as [| y l IH]; simpl.
  - apply Permutation_refl.
  - destruct (leb x y).
    + apply Permutation_refl.
    + eapply perm_trans; [apply perm_skip, IH | apply perm_swap].
Qed.

Lemma sort_by_perm (l : list A) : Permutation (sort_by leb l) l.
Proof.
  induction l as [| x l IH]; simpl.
  - apply perm_nil.
  - eapply perm_trans; [apply insert_by_perm | now apply perm_skip].
Qed.

Lemma sort_by_In (l : list A) (x : A) : In x (sort_by leb l) <-> In x l.
Proof.
  split; apply Permutation_in;
    [apply sort_by_perm | apply Permutation_sym, sort_by_perm].
Qed.

Hypothesis leb_total : forall a b, leb a b = true \/ leb b a = true.
Hypothesis leb_trans : forall a b c, leb a b = true -> leb b c = true -> leb a c = true.

Lemma insert_by_sorted (x : A) (l : list A) :
  StronglySorted (fun a b => leb a b = true) l ->
  StronglySorted (fun a b => leb a b = true) (insert_by leb x l).
Proof.
  induction l as [| y l IH]; intros Hs; simpl.
  - constructor; [constructor | constructor].
  - inversion Hs as [| ? ? Hl Hy]; subst.
    destruct (leb x y) eqn:E.
    + constructor; [exact Hs |].
      constructor; [exact E |].
      rewrite Forall_forall in *. intros z Hz. eapply leb_trans; [exact E | now apply Hy].
    + constructor; [now apply IH |].
      rewrite Forall_forall in *. intros z Hz.
      apply (Permutation_in _ (insert_by_perm x l)) in Hz.
      destruct Hz as [<- | Hz]; [| now apply Hy].
      destruct (leb_total x y) as [H | H]; [congruence | exact H].
Qed.

Lemma sort_by_sorted (l : list A) :
  StronglySorted (fun a b => leb a b = true) (sort_by leb l).
Proof.
  induction l as [| x l IH]; simpl.
  - constructor.
  - now apply insert_by_sorted.
Qed.
End SortFacts.

Lemma string_ltb_trans (a b c : string) :
  String.ltb a b = true -> String.ltb b c = true -> String.ltb a c = true.
Proof.
  unfold String.ltb. intros Hab Hbc.
  destruct (String.compare a b) eqn:Eab; try discriminate.
  destruct (String.compare b c) eqn:Ebc; try discriminate.
  apply String_as_OT.cmp_lt in Eab. apply String_as_OT.cmp_lt in Ebc.
  assert (Hac : String_as_OT.cmp a c = Lt)
    by (apply String_as_OT.cmp_lt; eapply String_as_OT.lt_trans; eassumption).
  unfold String_as_OT.cmp in Hac. now rewrite Hac.
Qed.

Lemma string_ltb_irrefl (a : string) : String.ltb a a = false.
Proof.
  unfold String.ltb.
  assert (H : String_as_OT.cmp a a = Eq) by now apply String_as_OT.cmp_eq.
  unfold String_as_OT.cmp in H. now rewrite H.
Qed.

Lemma string_trichotomy (a b : string) :
  String.ltb a b = true \/ a = b \/ String.ltb b a = true.
Proof.
  unfold String.ltb. rewrite (String.compare_antisym b a).
  destruct (String.compare a b) eqn:E; simpl; auto.
  right; left. now apply String.compare_eq_iff.
Qed.

Lemma key_leb_total (a b : Key) : key_leb a b = true \/ key_leb b a = true.
Proof.
  unfold key_leb. destruct a as [c1 d1], b as [c2 d2]; simpl.
  destruct (string_trichotomy c1 c2) as [H | [-> | H]].
  - left. now rewrite H.
  - rewrite String.eqb_refl, string_ltb_irrefl. simpl.
    destruct (Z.leb_spec d1 d2); [now left | right].
    apply Z.leb_le. lia.
  - right. now rewrite H.
Qed.

Lemma key_leb_trans (a b c : Key) :
  key_leb a b = true -> key_leb b c = true -> key_leb a c = true.
Proof.
  unfold key_leb. destruct a as [c1 d1], b as [c2 d2], c as [c3 d3]; simpl.
  intros Hab Hbc.
  apply orb_true_iff in Hab. apply orb_true_iff in Hbc. apply orb_true_iff.
  destruct Hab as [Hab | Hab]; destruct Hbc as [Hbc | Hbc].
  - left. eapply string_ltb_trans; eassumption.
  - apply andb_true_iff in Hbc. destruct Hbc as [E _].
    apply String.eqb_eq in E. subst c3. now left.
  - apply andb_true_iff in Hab. destruct Hab as [E _].
    apply String.eqb_eq in E. subst c2. now left.
  - apply andb_true_iff in Hab. apply andb_true_iff in Hbc.
    destruct Hab as [E1 L1]. destruct Hbc as [E2 L2].
    apply String.eqb_eq in E1. apply String.eqb_eq in E2. subst c2 c3.
    right. rewrite String.eqb_refl. simpl.
    apply Z.leb_le. apply Z.leb_le in L1. apply Z.leb_le in L2. lia.
Qed.

(** With distinct keys the order is strict: equal countries have
    increasing dates. *)
Lemma key_leb_cases (a b : Key) :
  key_leb a b = true ->
  String.ltb (fst a) (fst b) = true \/ (fst a = fst b /\ snd a <= snd b).
Proof.
  unfold key_leb. intros H. apply orb_true_iff in H. destruct H as [H | H]; [now left |].
  apply andb_true_iff in H. destruct H as [E L].
  apply String.eqb_eq in E. apply Z.leb_le in L. now right.
Qed.

(** ** Distinct elements *)

Section DedupFacts.
Context {A : Type} (eqb : A -> A -> bool).
Hypothesis eqb_spec : forall a b, eqb a b = true <-> a = b.

Lemma existsb_eqb (x : A) (l : list A) : existsb (eqb x) l = true <-> In x l.
Proof.
  rewrite existsb_exists. split.
  - intros [y [Hy E]]. apply eqb_spec in E. now subst.
  - intros H. exists x. split; [exact H | now apply eqb_spec].
Qed.

Lemma dedup_In (l : list A) (x : A) : In x (dedup eqb l) <-> In x l.
Proof.
  induction l as [| y l IH]; simpl; [reflexivity |].
  destruct (existsb (eqb y) l) eqn:E.
  - rewrite IH. apply existsb_eqb in E. split; [now right |].
    intros [<- | H]; assumption.
  - simpl. now rewrite IH.
Qed.

Lemma dedup_NoDup (l : list A) : NoDup (dedup eqb l).
Proof.
  induction l as [| y l IH]; simpl; [constructor |].
  destruct (existsb (eqb y) l) eqn:E; [exact IH |].
  constructor; [| exact IH].
  rewrite dedup_In. intros H. apply existsb_eqb in H. congruence.
Qed.

Lemma has_dup_false (l : list A) : has_dup eqb l = false -> NoDup l.
Proof.
  induction l as [| y l IH]; simpl; intros H; [constructor |].
  apply orb_false_iff in H. destruct H as [H1 H2].
  constructor; [| now apply IH].
  intros Hin. apply existsb_eqb in Hin. congruence.
Qed.
End DedupFacts.

Lemma str_key_eqb_spec (a b : StrKey) : str_key_eqb a b = true <-> a = b.
Proof.
  unfold str_key_eqb. destruct a as [a1 a2], b as [b1 b2]; simpl.
  rewrite andb_true_iff, !String.eqb_eq. split; [intros [-> ->]; reflexivity |].
  intros H; inversion H; auto.
Qed.

Lemma key_eqb_spec (a b : Key) : key_eqb a b = true <-> a = b.
Proof.
  unfold key_eqb. destruct a as [a1 a2], b as [b1 b2]; simpl.
  rewrite andb_true_iff, String.eqb_eq, Z.eqb_eq. split; [intros [-> ->]; reflexivity |].
  intros H; inversion H; auto.
Qed.

(** ** country_data *)

Lemma index_of_lt (s : string) (l : list string) :
  In s l -> (index_of s l < List.length l)%nat /\ nth (index_of s l) l EmptyString = s.
Proof.
  induction l as [| x l IH]; simpl; [contradiction |].
  intros Hin. destruct (String.eqb x s) eqn:E.
  - apply String.eqb_eq in E. split; [lia | exact E].
  - destruct Hin as [-> | Hin]; [now rewrite String.eqb_refl in E |].
    destruct (IH Hin) as [Hlt Hnth]. split; [lia | exact Hnth].
Qed.

Lemma level_date_inj (levels : list string) (dates : list Z) (s1 s2 : string) :
  NoDup dates -> (List.length levels <= List.length dates)%nat ->
  In s1 levels -> In s2 levels ->
  nth (index_of s1 levels) dates 0 = nth (index_of s2 levels) dates 0 ->
  s1 = s2.
Proof.
  intros Hnd Hlen H1 H2 Heq.
  destruct (index_of_lt s1 levels H1) as [L1 N1].
  destruct (index_of_lt s2 levels H2) as [L2 N2].
  assert (Hidx : index_of s1 levels = index_of s2 levels).
  { apply (proj1 (NoDup_nth dates 0) Hnd); [lia | lia | exact Heq]. }
  rewrite <- N1, <- N2, Hidx. reflexivity.
Qed.

(** *** The sum of a group of counts is exact *)






Lemma column_dtype_int64 (cs : list Cell) (c : Cell) :
  column_dtype cs = int64 -> In c cs -> is_int64 c = true.
Proof.
  unfold column_dtype. destruct (forallb is_int64 cs) eqn:E; [| discriminate].
  intros _ Hc. rewrite forallb_forall in E. now apply E.
Qed.



(** *** The groups *)

Lemma group_keys_In (df_cleaned : LongTable) (k : StrKey) :
  In k (group_keys df_cleaned) <-> exists r, In r df_cleaned /\ group_key r = Some k.
Proof.
  unfold group_keys. rewrite in_flat_map. split.
  - intros [r [Hr Hk]]. exists r. split; [exact Hr |].
    destruct (group_key r) as [k' |]; [| contradiction].
    destruct Hk as [-> | []]. reflexivity.
  - intros [r [Hr Hk]]. exists r. split; [exact Hr |]. rewrite Hk. now left.
Qed.

Lemma groupby_sum_rows_In (df_cleaned : LongTable) (row : StrKey * list Cell) :
  In row (rows (groupby_sum df_cleaned))
  <-> exists r k, In r df_cleaned /\ group_key r = Some k
        /\ row = (k, [group_sum (column_dtype (map Cases df_cleaned))
                                (map Cases (filter (in_group k) df_cleaned))]).
Proof.
  unfold groupby_sum; cbn [rows]. rewrite in_map_iff. split.
  - intros [k [<- Hk]]. apply (proj1 (sort_by_In _ _ _)) in Hk.
    apply (proj1 (dedup_In _ str_key_eqb_spec _ _)) in Hk. apply group_keys_In in Hk.
    destruct Hk as [r [Hr Hk]]. exists r, k. auto.
  - intros [r [k [Hr [Hk ->]]]]. exists k. split; [reflexivity |].
    apply (proj2 (sort_by_In _ _ _)). apply (proj2 (dedup_In _ str_key_eqb_spec _ _)).
    apply group_keys_In. now exists r.
Qed.

Lemma groupby_sum_index_NoDup (df_cleaned : LongTable) :
  NoDup (map fst (rows (groupby_sum df_cleaned))).
Proof.
  unfold groupby_sum; simpl. rewrite map_map; simpl. rewrite map_id.
  eapply Permutation_NoDup; [apply Permutation_sym, sort_by_perm |].
  apply (dedup_NoDup _ str_key_eqb_spec).
Qed.

Lemma date_levels_In (df : FrameOf StrKey) (s : string) :
  In s (date_levels df) <-> exists row, In row (rows df) /\ snd (fst row) = s.
Proof.
  unfold date_levels. rewrite sort_by_In, (dedup_In _ String.eqb_eq), in_map_iff.
  split; intros [row [H1 H2]]; exists row; auto.
Qed.

Section CountryData.
Variable to_datetime : list string -> option (list Z).

Lemma set_date_level_inv (df : FrameOf StrKey) (ct : Frame) :
  set_date_level to_datetime df = inr ct ->
  exists dates,
    to_datetime (date_levels df) = Some dates
    /\ (List.length (date_levels df) <= List.length dates)%nat
    /\ NoDup dates
    /\ ct = mkFrame (columns df)
              (map (fun r => ((fst (fst r),
                               nth (index_of (snd (fst r)) (date_levels df)) dates 0),
                              snd r))
                   (rows df)).
Proof.
  unfold set_date_level. destruct (to_datetime (date_levels df)) as [dates |]; [| discriminate].
  destruct (Nat.ltb (List.length dates) (List.length (date_levels df))) eqn:L; [discriminate |].
  destruct (has_dup Z.eqb dates) eqn:D; [discriminate |].
  intros H. injection H as <-. exists dates.
  apply Nat.ltb_ge in L. apply (has_dup_false _ Z.eqb_eq) in D. auto.
Qed.

Lemma country_data_inv (df_cleaned : LongTable) (oldname newname : string) (ct : Frame) :
  country_data to_datetime df_cleaned oldname newname = inr ct ->
  exists dates,
    let levels := date_levels (groupby_sum df_cleaned) in
    to_datetime levels = Some dates
    /\ (List.length levels <= List.length dates)%nat
    /\ NoDup dates
    /\ columns ct = [if String.eqb "Cases" oldname then newname else "Cases"]
    /\ rows ct
       = sort_by row_leb
           (map (fun r => ((fst (fst r), nth (index_of (snd (fst r)) levels) dates 0),
                           snd r))
                (rows (groupby_sum df_cleaned))).
Proof.
  unfold country_data. intros H.
  destruct (set_date_level to_datetime (groupby_sum df_cleaned)) as [e | df] eqn:E;
    [discriminate |].
  simpl in H. injection H as <-.
  apply set_date_level_inv in E. destruct E as [dates [Hd [Hlen [Hnd ->]]]].
  exists dates. simpl. auto.
Qed.
End CountryData.

Lemma StronglySorted_map {A B : Type} (f : A -> B) (R : B -> B -> Prop) (l : list A) :
  StronglySorted (fun a b => R (f a) (f b)) l -> StronglySorted R (map f l).
Proof.
  induction 1 as [| a l Hs IH Hall]; simpl; constructor.
  - exact IH.
  - rewrite Forall_forall in *. intros y Hy. apply in_map_iff in Hy.
    destruct Hy as [x [<- Hx]]. now apply Hall.
Qed.

Section CountryDataSpec.
Variable to_datetime : list string -> option (list Z).

(** The aggregated table, read off the source: keys are unique and in
    ascending order of country, then parsed date; every record that has a
    country has the row of its (country, date), every row comes from such
    a record, and the value is the sum of the group as [GroupBy.sum]
    computes it for the dtype of the column. *)
Lemma country_data_rows (df_cleaned : LongTable) (oldname newname : string) (ct : Frame)
    (H : country_data to_datetime df_cleaned oldname newname = inr ct) :
  exists dates : list Z,
    let levels := date_levels (groupby_sum df_cleaned) in
    let dt := column_dtype (map Cases df_cleaned) in
    to_datetime levels = Some dates
    /\ NoDup dates
    /\ (forall r country, In r df_cleaned -> Country_Region r = Some country ->
          In (Date r) levels)
    /\ (forall r k, In r df_cleaned -> group_key r = Some k ->
          filter (in_group k) df_cleaned
          = key_group levels dates (fst k, nth (index_of (snd k) levels) dates 0) df_cleaned)
    /\ NoDup (index ct)
    /\ StronglySorted (fun a b => key_leb a b = true) (index ct)
    /\ (forall row, In row (rows ct) <->
          exists r k, In r df_cleaned /\ parsed_key levels dates r = Some k
                      /\ row = (k, [group_sum dt
                                      (map Cases (key_group levels dates k df_cleaned))])).
Proof.
  destruct (country_data_inv _ _ _ _ _ H) as [dates [Hd [Hlen [Hnd [_ Hrows]]]]].
  exists dates. intros levels dt.
  fold levels in Hd, Hlen, Hrows.
  set (date_of := fun label => nth (index_of label levels) dates 0).
  assert (Hlabel : forall r country, In r df_cleaned -> Country_Region r = Some country ->
                                     In (Date r) levels).
  { intros r country Hr Hc. apply date_levels_In.
    exists ((country, Date r),
            [group_sum dt (map Cases (filter (in_group (country, Date r)) df_cleaned))]).
    split; [| reflexivity]. apply groupby_sum_rows_In.
    exists r, (country, Date r). split; [exact Hr |]. split; [| reflexivity].
    unfold group_key. now rewrite Hc. }
  assert (Hgroup : forall r k, In r df_cleaned -> group_key r = Some k ->
            filter (in_group k) df_cleaned
            = key_group levels dates (fst k, date_of (snd k)) df_cleaned).
  { intros r k Hr Hk. unfold key_group. apply filter_ext_in. intros r' Hr'.
    unfold group_key in Hk. destruct (Country_Region r) as [c |] eqn:Ec; [| discriminate].
    cbn [option_map] in Hk. injection Hk as <-. cbn [fst snd].
    unfold in_group, parsed_key, group_key.
    destruct (Country_Region r') as [c' |] eqn:Ec'; cbn [option_map]; [| reflexivity].
    apply Bool.eq_true_iff_eq. rewrite str_key_eqb_spec, key_eqb_spec.
    split; intros E; inversion E as [[E1 E2]].
    - reflexivity.
    - f_equal. apply (level_date_inj levels dates); eauto. }
  assert (Hin : forall row, In row (rows ct) <->
            exists r k, In r df_cleaned /\ parsed_key levels dates r = Some k
                        /\ row = (k, [group_sum dt
                                        (map Cases (key_group levels dates k df_cleaned))])).
  { intros row. rewrite Hrows, sort_by_In, in_map_iff. split.
    - intros [g [<- Hg]]. apply groupby_sum_rows_In in Hg.
      destruct Hg as [r [k [Hr [Hk ->]]]].
      exists r, (fst k, date_of (snd k)). split; [exact Hr |].
      cbn [fst snd]. fold dt. rewrite (Hgroup r k Hr Hk). split; [| reflexivity].
      unfold group_key in Hk. unfold parsed_key.
      destruct (Country_Region r); [| discriminate].
      cbn [option_map] in *. injection Hk as <-. reflexivity.
    - intros [r [k [Hr [Hk ->]]]].
      unfold parsed_key in Hk. destruct (Country_Region r) as [c |] eqn:Ec; [| discriminate].
      cbn [option_map] in Hk. injection Hk as <-.
      assert (Hgk : group_key r = Some (c, Date r))
        by (unfold group_key; now rewrite Ec).
      exists ((c, Date r),
              [group_sum dt (map Cases (filter (in_group (c, Date r)) df_cleaned))]).
      split; [cbn [fst snd]; now rewrite (Hgroup r _ Hr Hgk) |].
      apply groupby_sum_rows_In. exists r, (c, Date r). auto. }
  split; [exact Hd |]. split; [exact Hnd |]. split; [exact Hlabel |].
  split; [exact Hgroup |].
  split.
  { unfold index. rewrite Hrows.
    eapply Permutation_NoDup;
      [apply Permutation_map, Permutation_sym, sort_by_perm |].
    match goal with
    | |- NoDup (map fst (map _ ?G)) =>
        replace (map fst (map _ G))
          with (map (fun k : StrKey => (fst k, date_of (snd k))) (map fst G))
          by (rewrite !map_map; reflexivity)
    end.
    apply NoDup_map_NoDup_ForallPairs; [| apply groupby_sum_index_NoDup].
    intros k1 k2 H1 H2 E. inversion E as [[E1 E2]].
    apply in_map_iff in H1. destruct H1 as [g1 [<- G1]].
    apply in_map_iff in H2. destruct H2 as [g2 [<- G2]].
    apply groupby_sum_rows_In in G1. destruct G1 as [r1 [k1 [R1 [K1 ->]]]].
    apply groupby_sum_rows_In in G2. destruct G2 as [r2 [k2 [R2 [K2 ->]]]].
    cbn [fst snd] in *.
    unfold group_key in K1, K2.
    destruct (Country_Region r1) as [c1 |] eqn:C1; [| discriminate].
    destruct (Country_Region r2) as [c2 |] eqn:C2; [| discriminate].
    cbn [option_map] in K1, K2. injection K1 as <-. injection K2 as <-.
    cbn [fst snd] in *. f_equal; [exact E1 |].
    apply (level_date_inj levels dates); eauto. }
  split.
  { unfold index. rewrite Hrows. apply StronglySorted_map.
    apply (sort_by_sorted row_leb).
    - intros a b. apply key_leb_total.
    - intros a b c. apply key_leb_trans. }
  exact Hin.
Qed.

End CountryDataSpec.



(** ** Left joins *)

Lemma filter_key_unique (rs : list (Key * list Cell)) (k : Key) :
  NoDup (map fst rs) ->
  filter (fun r => key_eqb (fst r) k) rs = []
  \/ exists m, filter (fun r => key_eqb (fst r) k) rs = [m].
Proof.
  induction rs as [| r rs IH]; simpl; intros Hnd; [now left |].
  inversion Hnd as [| ? ? Hnotin Hnd']; subst.
  destruct (key_eqb (fst r) k) eqn:E.
  - right. exists r. f_equal.
    apply key_eqb_spec in E. subst k.
    destruct (filter (fun r0 => key_eqb (fst r0) (fst r)) rs) as [| m ms] eqn:F;
      [reflexivity |].
    exfalso. apply Hnotin.
    assert (Hm : In m (filter (fun r0 => key_eqb (fst r0) (fst r)) rs))
      by (rewrite F; now left).
    apply filter_In in Hm. destruct Hm as [Hm Ek]. apply key_eqb_spec in Ek.
    rewrite <- Ek. now apply in_map.
  - now apply IH.
Qed.

Lemma joined_cells_absent (k : Key) (right : Frame) :
  ~ In k (index right) -> joined_cells k right = map (fun _ => NaN) (columns right).
Proof.
  intros Hk. unfold joined_cells.
  destruct (filter (fun r => key_eqb (fst r) k) (rows right)) as [| m ms] eqn:F;
    [reflexivity |].
  exfalso. apply Hk.
  assert (Hm : In m (filter (fun r => key_eqb (fst r) k) (rows right)))
    by (rewrite F; now left).
  apply filter_In in Hm. destruct Hm as [Hm Ek]. apply key_eqb_spec in Ek.
  rewrite <- Ek. unfold index. now apply in_map.
Qed.

Lemma joined_cells_present (k : Key) (cs : list Cell) (right : Frame) :
  NoDup (index right) -> In (k, cs) (rows right) -> joined_cells k right = cs.
Proof.
  intros Hnd Hin. unfold joined_cells.
  assert (Hf : In (k, cs) (filter (fun r => key_eqb (fst r) k) (rows right))).
  { apply filter_In. split; [exact Hin | now apply key_eqb_spec]. }
  destruct (filter_key_unique (rows right) k Hnd) as [E | [m E]]; rewrite E in *.
  - contradiction.
  - destruct Hf as [-> | []]. reflexivity.
Qed.

Lemma merge_left_rows (left right : Frame) :
  NoDup (index right) ->
  rows (merge_left left right)
  = map (fun l => (fst l, snd l ++ joined_cells (fst l) right)) (rows left).
Proof.
  intros Hnd. unfold merge_left; simpl.
  induction (rows left) as [| l ls IH]; simpl; [reflexivity |].
  rewrite IH. unfold joined_cells.
  destruct (filter_key_unique (rows right) (fst l) Hnd) as [E | [m E]]; rewrite E;
    reflexivity.
Qed.

Lemma merge_left_index_In (left right : Frame) (k : Key) :
  In k (index (merge_left left right)) <-> In k (index left).
Proof.
  unfold index, merge_left. cbn [rows].
  rewrite !in_map_iff. split.
  - intros [x [Hx Hin]]. apply in_flat_map in Hin. destruct Hin as [l [Hl Hin]].
    exists l. split; [| exact Hl]. subst k.
    destruct (filter (fun r => key_eqb (fst r) (fst l)) (rows right)) as [| m ms].
    + destruct Hin as [<- | []]. reflexivity.
    + apply in_map_iff in Hin. destruct Hin as [r [<- _]]. reflexivity.
  - intros [l [Hk Hl]].
    destruct (filter (fun r => key_eqb (fst r) (fst l)) (rows right)) as [| m ms] eqn:F.
    + exists (fst l, snd l ++ map (fun _ => NaN) (columns right)).
      split; [exact Hk |]. apply in_flat_map. exists l. split; [exact Hl |].
      rewrite F. now left.
    + exists (fst l, snd l ++ snd m).
      split; [exact Hk |]. apply in_flat_map. exists l. split; [exact Hl |].
      rewrite F. now left.
Qed.

Lemma merge_left_index (left right : Frame) :
  NoDup (index right) -> index (merge_left left right) = index left.
Proof.
  intros Hnd. unfold index. rewrite merge_left_rows by exact Hnd.
  rewrite map_map. reflexivity.
Qed.

Lemma foldR_join_inv (dfs_country dfs_daily : Dict Frame) (js : list (Source * string)) :
  forall (acc df : Frame),
    foldR (join_step dfs_country dfs_daily) js acc = inr df ->
    exists rights,
      Forall2 (fun j right =>
                 dict_get (snd j) (source_dict dfs_country dfs_daily (fst j)) = inr right)
              js rights
      /\ df = fold_left merge_left rights acc.
Proof.
  induction js as [| j js IH]; intros acc df H; simpl in H.
  - injection H as <-. exists []. split; [constructor | reflexivity].
  - unfold join_step at 1 in H.
    destruct (dict_get (snd j) (source_dict dfs_country dfs_daily (fst j)))
      as [e | right] eqn:E; [discriminate |].
    simpl in H. apply IH in H. destruct H as [rights [Hf ->]].
    exists (right :: rights). split; [constructor; assumption | reflexivity].
Qed.

Lemma fold_merge_index_In (rights : list Frame) : forall (acc : Frame) (k : Key),
  In k (index (fold_left merge_left rights acc)) <-> In k (index acc).
Proof.
  induction rights as [| r rights IH]; intros acc k; simpl; [reflexivity |].
  rewrite IH. apply merge_left_index_In.
Qed.

Lemma fold_merge_rows (rights : list Frame) : forall (acc : Frame),
  Forall (fun right => NoDup (index right)) rights ->
  rows (fold_left merge_left rights acc)
  = map (fun l => (fst l, snd l ++ List.concat (map (joined_cells (fst l)) rights)))
        (rows acc).
Proof.
  induction rights as [| r rights IH]; intros acc Hnd; simpl.
  - rewrite <- (map_id (rows acc)) at 1. apply map_ext.
    intros [k cs]. simpl. now rewrite app_nil_r.
  - inversion Hnd as [| ? ? Hr Hrs]; subst.
    rewrite IH by assumption. rewrite merge_left_rows by assumption.
    rewrite map_map. apply map_ext. intros [k cs]. simpl. now rewrite app_assoc.
Qed.

(** C5, amended.  The Consolidator makes five successive left joins (not
    four) anchored on the confirmed country table, in the order
    daily-new-confirmed, daily-new-deaths, deaths-total, recovered-total,
    daily-new-recovered.  The keys of the result are those of the
    confirmed table; when the joined tables have unique keys the rows are
    the confirmed rows, in order, each extended with one block of cells
    per joined table; and a key absent from a joined table gets a missing
    value, not 0, in each of that table's columns. *)
Theorem consolidator_left_joins
    (dfs_country dfs_daily : Dict Frame) (df : Frame)
    (H : merge_all dfs_country dfs_daily = inr df) :
  map snd consolidator_joins
  = [ Constants.TS_COVID19_DAILY_NEW_CONFIRMED_COUNTRY;
      Constants.TS_COVID19_DAILY_NEW_DEATHS_COUNTRY;
      Constants.TS_COVID19_DEATHS_COUNTRY;
      Constants.TS_COVID19_RECOVERED_COUNTRY;
      Constants.TS_COVID19_DAILY_NEW_RECOVERED_COUNTRY ]
  /\ exists (confirmed : Frame) (rights : list Frame),
       dict_get Constants.TS_COVID19_CONFIRMED_COUNTRY dfs_country = inr confirmed
       /\ Forall2 (fun j right =>
                     dict_get (snd j) (source_dict dfs_country dfs_daily (fst j))
                     = inr right)
                  consolidator_joins rights
       /\ df = fold_left merge_left rights confirmed
       /\ (forall k, In k (index df) <-> In k (index confirmed))
       /\ (Forall (fun right => NoDup (index right)) rights ->
             index df = index confirmed
             /\ rows df
                = map (fun l => (fst l,
                                 snd l ++ List.concat (map (joined_cells (fst l)) rights)))
                      (rows confirmed))
       /\ (forall k right, In right rights -> ~ In k (index right) ->
             joined_cells k right = map (fun _ => NaN) (columns right)).
Proof.
  split; [reflexivity |].
  unfold merge_all in H.
  destruct (dict_get Constants.TS_COVID19_CONFIRMED_COUNTRY dfs_country)
    as [e | confirmed] eqn:E; [discriminate |].
  cbn [bindR] in H. apply foldR_join_inv in H. destruct H as [rights [Hf ->]].
  exists confirmed, rights.
  split; [reflexivity |]. split; [exact Hf |]. split; [reflexivity |].
  split; [intros k; apply fold_merge_index_In |].
  split.
  - intros Hnd. assert (Hrows := fold_merge_rows rights confirmed Hnd).
    split; [| exact Hrows].
    unfold index. rewrite Hrows, map_map. reflexivity.
  - intros k right _ Hk. now apply joined_cells_absent.
Qed.

(** C5 as stated fails on the number of joins: the Consolidator makes
    five, and the joined sample table has one column for the confirmed
    totals and one for each of the five joined tables. *)
Lemma consolidator_joins_not_four :
  List.length consolidator_joins = 5%nat
  /\ List.length consolidator_joins <> 4%nat
  /\ merge_all sample_dfs_country sample_dfs_daily = inr sample_merged
  /\ columns sample_merged
     = ["Total Confirmed"; "Daily New Confirmed"; "Daily New Deaths";
        "Total Deaths"; "Total Recovered"; "Daily New Recovered"].
Proof.
  split; [reflexivity |]. split; [discriminate |]. split; reflexivity.
Qed.

(** ** Columns of a frame *)

Lemma col_index_Some (name : string) (cols : list string) : forall j,
  col_index name cols = Some j ->
  (j < List.length cols)%nat /\ nth j cols EmptyString = name.
Proof.
  induction cols as [| c cols IH]; simpl; intros j H; [discriminate |].
  destruct (String.eqb c name) eqn:E.
  - injection H as <-. apply String.eqb_eq in E. split; [lia | exact E].
  - destruct (col_index name cols) as [j' |]; [| discriminate].
    injection H as <-. destruct (IH j' eq_refl) as [L N]. split; [lia | exact N].
Qed.

Lemma col_index_app (name name' : string) (cols : list string) :
  col_index name (cols ++ [name'])
  = match col_index name cols with
    | Some j => Some j
    | None => if String.eqb name' name then Some (List.length cols) else None
    end.
Proof.
  induction cols as [| c cols IH]; simpl.
  - destruct (String.eqb name' name); reflexivity.
  - destruct (String.eqb c name); [reflexivity |].
    rewrite IH. destruct (col_index name cols); [reflexivity |].
    destruct (String.eqb name' name); reflexivity.
Qed.


Lemma nth_set_nth_other (cs : list Cell) : forall j j' v,
  j <> j' -> nth j (set_nth j' v cs) NaN = nth j cs NaN.
Proof.
  induction cs as [| c cs IH]; intros j j' v Hne; [destruct j'; reflexivity |].
  destruct j', j; simpl; try reflexivity; try congruence.
  apply IH. congruence.
Qed.

Lemma set_nth_length (cs : list Cell) : forall j v,
  List.length (set_nth j v cs) = List.length cs.
Proof.
  induction cs as [| c cs IH]; intros j v; [destruct j; reflexivity |].
  destruct j; simpl; [reflexivity | now rewrite IH].
Qed.

Lemma combine_fst {A B : Type} (l : list A) : forall (l' : list B),
  List.length l = List.length l' -> map fst (combine l l') = l.
Proof.
  induction l as [| a l IH]; intros [| b l'] H; simpl in *; try reflexivity; try discriminate.
  f_equal. apply IH. lia.
Qed.


Lemma get_column_length (name : string) (df : Frame) (vs : list Cell) :
  get_column name df = inr vs -> List.length vs = List.length (rows df).
Proof.
  unfold get_column. destruct (col_index name (columns df)); [| discriminate].
  intros H. injection H as <-. apply length_map.
Qed.

Lemma series2_length (f : Cell -> Cell -> Cell) (a b : list Cell) :
  List.length a = List.length b -> List.length (series2 f a b) = List.length a.
Proof.
  intros H. unfold series2. rewrite length_map, length_combine. lia.
Qed.


(** *** Typed columns *)


Lemma wrap64_range (z : Z) : - 2 ^ 63 <= wrap64 z < 2 ^ 63.
Proof.
  unfold wrap64.
  pose proof (Z.mod_pos_bound (z + 2 ^ 63) (2 ^ 64) ltac:(lia)). lia.
Qed.

Lemma is_int64_wrap (z : Z) : is_int64 (Int (wrap64 z)) = true.
Proof.
  unfold is_int64. change (is_int (Int (wrap64 z))) with true.
  change (cell_Z (Int (wrap64 z))) with (wrap64 z).
  pose proof (wrap64_range z).
  destruct (Z.leb_spec (- 2 ^ 63) (wrap64 z)); [| lia].
  destruct (Z.ltb_spec (wrap64 z) (2 ^ 63)); [reflexivity | lia].
Qed.

Lemma series2_int64_ok (f : Z -> Z -> Z) (a b : list Cell) :
  Forall (fun c => is_int64 c = true)
         (series2 (fun x y => Int (wrap64 (f (cell_Z x) (cell_Z y)))) a b).
Proof.
  unfold series2. apply Forall_forall. intros c Hc. apply in_map_iff in Hc.
  destruct Hc as [xy [<- _]]. apply is_int64_wrap.
Qed.


Lemma series_add_ok (a b : Series) : series_ok (series_add a b).
Proof.
  unfold series_ok, series_add. destruct (fst a), (fst b); cbn [fst snd]; try discriminate.
  intros _. apply (series2_int64_ok Z.add).
Qed.

Lemma series_sub_length (a b : Series) :
  List.length (snd a) = List.length (snd b) ->
  List.length (snd (series_sub a b)) = List.length (snd a).
Proof.
  intros H. unfold series_sub. destruct (fst a), (fst b); cbn [snd];
    now apply series2_length.
Qed.

Lemma series_add_length (a b : Series) :
  List.length (snd a) = List.length (snd b) ->
  List.length (snd (series_add a b)) = List.length (snd a).
Proof.
  intros H. unfold series_add. destruct (fst a), (fst b); cbn [snd];
    now apply series2_length.
Qed.






Lemma active_cases_length (confirmed deaths recovered : list Cell) :
  List.length confirmed = List.length deaths ->
  List.length confirmed = List.length recovered ->
  List.length (active_cases confirmed deaths recovered) = List.length confirmed.
Proof.
  intros Hd Hr. unfold active_cases.
  rewrite series_sub_length; rewrite series_sub_length; cbn [snd as_series];
    congruence.
Qed.

Lemma recovered_share_eq (recovered deaths : list Cell) :
  recovered_share recovered deaths
  = map (fun c => np_round c 2)
        (series2 cell_div recovered
                 (snd (series_add (as_series recovered) (as_series deaths)))).
Proof. reflexivity. Qed.

Lemma death_ratio_eq (deaths confirmed : list Cell) :
  death_ratio deaths confirmed
  = map (fun c => np_round c 3) (series2 cell_div deaths confirmed).
Proof. reflexivity. Qed.

Lemma recovered_share_length (recovered deaths : list Cell) :
  List.length recovered = List.length deaths ->
  List.length (recovered_share recovered deaths) = List.length recovered.
Proof.
  intros H. rewrite recovered_share_eq, length_map, series2_length; [reflexivity |].
  rewrite series_add_length; cbn [snd as_series]; congruence.
Qed.

Lemma death_ratio_length (deaths confirmed : list Cell) :
  List.length deaths = List.length confirmed ->
  List.length (death_ratio deaths confirmed) = List.length deaths.
Proof.
  intros H. rewrite death_ratio_eq, length_map, series2_length; congruence.
Qed.

Section SetColumn.
Variables (df : Frame) (values : list Cell).
Hypothesis Hrect : rectangular df.
Hypothesis Hlen : List.length values = List.length (rows df).

Lemma row_length (r : Key * list Cell) :
  In r (rows df) -> List.length (snd r) = List.length (columns df).
Proof. unfold rectangular in Hrect. rewrite Forall_forall in Hrect. apply Hrect. Qed.


Lemma get_set_other (name name' : string) :
  name <> name' ->
  get_column name (set_column name' values df) = get_column name df.
Proof.
  intros Hne. unfold set_column.
  destruct (col_index name' (columns df)) as [j' |] eqn:E'.
  - unfold get_column; simpl.
    destruct (col_index name (columns df)) as [j |] eqn:E; [| reflexivity].
    f_equal. rewrite map_map. simpl.
    rewrite <- (combine_fst (rows df) values) at 2 by (symmetry; exact Hlen).
    rewrite map_map. apply map_ext. intros [r v]. simpl.
    apply nth_set_nth_other.
    apply col_index_Some in E. apply col_index_Some in E'.
    intros ->. destruct E as [_ E]. destruct E' as [_ E']. congruence.
  - unfold get_column; simpl. rewrite col_index_app.
    destruct (col_index name (columns df)) as [j |] eqn:E.
    + f_equal. rewrite map_map. simpl.
      rewrite <- (combine_fst (rows df) values) at 2 by (symmetry; exact Hlen).
      rewrite map_map. apply map_ext_in. intros [r v] Hin. simpl.
      apply in_combine_l in Hin. apply col_index_Some in E.
      apply app_nth1. rewrite (row_length r Hin). tauto.
    + destruct (String.eqb name' name) eqn:En; [| reflexivity].
      apply String.eqb_eq in En. congruence.
Qed.

Lemma set_column_index (name : string) :
  index (set_column name values df) = index df.
Proof.
  unfold index, set_column.
  destruct (col_index name (columns df)); simpl; rewrite map_map; simpl;
    rewrite <- (map_map fst fst); rewrite combine_fst by (symmetry; exact Hlen);
    reflexivity.
Qed.

Lemma set_column_rows_length (name : string) :
  List.length (rows (set_column name values df)) = List.length (rows df).
Proof.
  unfold set_column.
  destruct (col_index name (columns df)); simpl;
    rewrite length_map, length_combine; lia.
Qed.

Lemma set_column_rectangular (name : string) :
  rectangular (set_column name values df).
Proof.
  unfold rectangular, set_column.
  destruct (col_index name (columns df)) as [j |]; simpl;
    apply Forall_forall; intros r Hr; apply in_map_iff in Hr;
    destruct Hr as [[r0 v] [<- Hin]]; apply in_combine_l in Hin; simpl.
  - rewrite set_nth_length. now apply row_length.
  - rewrite !length_app, (row_length r0 Hin). reflexivity.
Qed.
End SetColumn.

(** ** The derived columns *)

Ltac names_differ := apply String.eqb_neq; reflexivity.



Lemma merge_left_rectangular (left right : Frame) :
  rectangular left -> rectangular right -> rectangular (merge_left left right).
Proof.
  unfold rectangular, merge_left. cbn [rows columns]. intros Hl Hr.
  rewrite Forall_forall in *. intros x Hx.
  rewrite length_app, !length_map.
  apply in_flat_map in Hx. destruct Hx as [l [Hin Hx]].
  destruct (filter (fun r => key_eqb (fst r) (fst l)) (rows right)) as [| m ms] eqn:F.
  - destruct Hx as [<- | []]. simpl. rewrite length_app, length_map, (Hl l Hin). reflexivity.
  - apply in_map_iff in Hx. destruct Hx as [r [<- Hrin]]. simpl.
    rewrite <- F in Hrin. apply filter_In in Hrin. destruct Hrin as [Hrin _].
    rewrite length_app, (Hl l Hin), (Hr r Hrin). reflexivity.
Qed.

Lemma fold_merge_rectangular (rights : list Frame) : forall acc,
  Forall rectangular rights -> rectangular acc ->
  rectangular (fold_left merge_left rights acc).
Proof.
  induction rights as [| r rights IH]; intros acc Hrs Hacc; simpl; [exact Hacc |].
  inversion Hrs; subst. apply IH; [assumption |].
  now apply merge_left_rectangular.
Qed.



Lemma consolidate_inv (dfs_country dfs_daily : Dict Frame) (df : Frame) :
  consolidate dfs_country dfs_daily = inr df ->
  exists df0, merge_all dfs_country dfs_daily = inr df0 /\ derived_columns df0 = inr df.
Proof.
  unfold consolidate. destruct (merge_all dfs_country dfs_daily) as [e | df0]; [discriminate |].
  cbn [bindR]. intros H. now exists df0.
Qed.

(** *** The ratios *)

Lemma small_in_float (z : Z) : small z -> in_float z.
Proof. unfold small, in_float. lia. Qed.










(** C3 as stated fails beyond 2^53: where the deaths of another country
    are missing the columns are float64, and the confirmed total
    2^53 + 1 minus 0 minus 0 is 2^53. *)
Lemma active_cases_not_exact :
  exists df confirmed deaths recovered active,
    consolidate large_dfs_country large_dfs_daily = inr df
    /\ get_column "Total Confirmed" df = inr confirmed
    /\ get_column "Total Deaths" df = inr deaths
    /\ get_column "Total Recovered" df = inr recovered
    /\ get_column "Total Active Cases" df = inr active
    /\ nth 0 confirmed NaN = Int (2 ^ 53 + 1)
    /\ nth 0 deaths NaN = Int 0
    /\ nth 0 recovered NaN = Int 0
    /\ nth 0 active NaN = Int (2 ^ 53)
    /\ 2 ^ 53 <> 2 ^ 53 + 1 - 0 - 0.
Proof.
  do 5 eexists.
  split; [vm_compute; reflexivity |].
  repeat (split; [vm_compute; reflexivity |]).
  lia.
Qed.



(** ** The pipeline *)

Lemma load_global_run (w : World) (log : Log) :
  load_global w log
  = match csv_at w confirmed_url with
    | inl e => (inl e, log ++ [confirmed_url])
    | inr t1 =>
        match csv_at w deaths_url with
        | inl e => (inl e, log ++ [confirmed_url; deaths_url])
        | inr t2 =>
            match csv_at w recovered_url with
            | inl e => (inl e, log ++ [confirmed_url; deaths_url; recovered_url])
            | inr t3 =>
                (inr [ (Constants.TS_COVID19_CONFIRMED_GLOBAL, clean_data t1);
                       (Constants.TS_COVID19_DEATHS_GLOBAL, clean_data t2);
                       (Constants.TS_COVID19_RECOVERED_GLOBAL, clean_data t3) ],
                 log ++ [confirmed_url; deaths_url; recovered_url])
            end
        end
    end.
Proof.
  unfold load_global, cssegis_data. cbn [foldM fst snd].
  unfold bind, pd_read_csv, ret.
  destruct (csv_at w confirmed_url) as [e | t1]; [reflexivity |].
  destruct (csv_at w deaths_url) as [e | t2];
    [rewrite <- app_assoc; reflexivity |].
  destruct (csv_at w recovered_url) as [e | t3];
    rewrite <- !app_assoc; reflexivity.
Qed.

Lemma build_country_run (to_datetime : list string -> option (list Z))
    (l1 l2 l3 : LongTable) :
  build_country to_datetime
    [ (Constants.TS_COVID19_CONFIRMED_GLOBAL, l1);
      (Constants.TS_COVID19_DEATHS_GLOBAL, l2);
      (Constants.TS_COVID19_RECOVERED_GLOBAL, l3) ]
  = (c1 <-? country_data to_datetime l1 "Cases" "Total Confirmed" ;;
     c2 <-? country_data to_datetime l2 "Cases" "Total Deaths" ;;
     c3 <-? country_data to_datetime l3 "Cases" "Total Recovered" ;;
     inr [ (Constants.TS_COVID19_CONFIRMED_COUNTRY, c1);
           (Constants.TS_COVID19_DEATHS_COUNTRY, c2);
           (Constants.TS_COVID19_RECOVERED_COUNTRY, c3) ]).
Proof.
  unfold build_country. cbn [foldR fst snd].
  change (dict_get Constants.TS_COVID19_CONFIRMED_GLOBAL _) with (@inr Exn _ l1).
  change (dict_get Constants.TS_COVID19_DEATHS_GLOBAL _) with (@inr Exn _ l2).
  change (dict_get Constants.TS_COVID19_RECOVERED_GLOBAL _) with (@inr Exn _ l3).
  cbn [bindR].
  change (percent_s "Total " (key_to_case_type Constants.TS_COVID19_CONFIRMED_GLOBAL))
    with "Total Confirmed".
  change (percent_s "Total " (key_to_case_type Constants.TS_COVID19_DEATHS_GLOBAL))
    with "Total Deaths".
  change (percent_s "Total " (key_to_case_type Constants.TS_COVID19_RECOVERED_GLOBAL))
    with "Total Recovered".
  destruct (country_data to_datetime l1 "Cases" "Total Confirmed") as [e | c1];
    [reflexivity |].
  destruct (country_data to_datetime l2 "Cases" "Total Deaths") as [e | c2];
    [reflexivity |].
  destruct (country_data to_datetime l3 "Cases" "Total Recovered") as [e | c3];
    reflexivity.
Qed.

Lemma build_daily_run (c1 c2 c3 : Frame) :
  build_daily
    [ (Constants.TS_COVID19_CONFIRMED_COUNTRY, c1);
      (Constants.TS_COVID19_DEATHS_COUNTRY, c2);
      (Constants.TS_COVID19_RECOVERED_COUNTRY, c3) ]
  = inr [ (Constants.TS_COVID19_DAILY_NEW_CONFIRMED_COUNTRY,
           daily_data c1 "Total Confirmed" "Daily New Confirmed");
          (Constants.TS_COVID19_DAILY_NEW_DEATHS_COUNTRY,
           daily_data c2 "Total Deaths" "Daily New Deaths");
          (Constants.TS_COVID19_DAILY_NEW_RECOVERED_COUNTRY,
           daily_data c3 "Total Recovered" "Daily New Recovered") ].
Proof. reflexivity. Qed.

Lemma last_commit_date_run (w : World) (url : string) (log : Log) :
  _get_last_commit_date w url log = (commit_date (json_at w url), log ++ [url]).
Proof.
  unfold _get_last_commit_date, bind, urlopen_json, lift, commit_date.
  destruct (json_at w url); reflexivity.
Qed.

(** The ways the last-update lookup fails: the endpoint is out of reach,
    the commit list is empty, a field is missing. *)
Lemma commit_date_failures :
  (forall e, commit_date (inl e) = inl e)
  /\ commit_date (inr (JArray [])) = inl IndexError
  /\ commit_date (inr (JArray [JObject [("sha", JString "0f1e")]])) = inl (KeyError "commit")
  /\ commit_date (inr (JArray [JObject [("commit", JObject [("committer", JObject [])])]]))
     = inl (KeyError "date").
Proof. repeat split. Qed.

Section PipelineFacts.
Variable to_datetime : list string -> option (list Z).

Lemma get_datasets_run (w : World) (log : Log) :
  get_datasets to_datetime w log
  = match load_global w log with
    | (inl e, log1) => (inl e, log1)
    | (inr dfs_global, log1) =>
        match build_country to_datetime dfs_global with
        | inl e => (inl e, log1)
        | inr dfs_country =>
            match build_daily dfs_country with
            | inl e => (inl e, log1)
            | inr dfs_daily =>
                match consolidate dfs_country dfs_daily with
                | inl e => (inl e, log1)
                | inr df_country_consol =>
                    match commit_date (json_at w commits_url) with
                    | inl e => (inl e, log1 ++ [commits_url])
                    | inr last_update =>
                        (inr (bundle_tables dfs_global dfs_country dfs_daily
                                            df_country_consol,
                              last_update),
                         log1 ++ [commits_url])
                    end
                end
            end
        end
    end.
Proof.
  unfold get_datasets, bind, lift, ret.
  destruct (load_global w log) as [[e | dfs_global] log1]; [reflexivity |].
  destruct (build_country to_datetime dfs_global) as [e | dfs_country]; [reflexivity |].
  destruct (build_daily dfs_country) as [e | dfs_daily]; [reflexivity |].
  destruct (consolidate dfs_country dfs_daily) as [e | consol]; [reflexivity |].
  rewrite last_commit_date_run.
  destruct (commit_date (json_at w commits_url)); reflexivity.
Qed.

(** One run requests the resources of the cycle in order, each at most
    once, stops at the first failure, and requests all four when it
    returns a bundle. *)
Lemma get_datasets_log (w : World) (log : Log) :
  exists n, (1 <= n <= 4)%nat
    /\ snd (get_datasets to_datetime w log) = log ++ firstn n fetch_cycle
    /\ (forall b, fst (get_datasets to_datetime w log) = inr b -> n = 4%nat).
Proof.
  rewrite get_datasets_run, load_global_run.
  destruct (csv_at w confirmed_url) as [e | t1].
  { exists 1%nat. repeat split; try lia. discriminate. }
  destruct (csv_at w deaths_url) as [e | t2].
  { exists 2%nat. repeat split; try lia. discriminate. }
  destruct (csv_at w recovered_url) as [e | t3].
  { exists 3%nat. repeat split; try lia. discriminate. }
  destruct (build_country to_datetime _) as [e | dfs_country].
  { exists 3%nat. repeat split; try lia. discriminate. }
  destruct (build_daily dfs_country) as [e | dfs_daily].
  { exists 3%nat. repeat split; try lia. discriminate. }
  destruct (consolidate dfs_country dfs_daily) as [e | consol].
  { exists 3%nat. repeat split; try lia. discriminate. }
  destruct (commit_date (json_at w commits_url)) as [e | d];
    exists 4%nat; cbn [fst snd]; rewrite <- app_assoc; repeat split; lia.
Qed.
End PipelineFacts.

(** ** The memoised entry point *)

Section CacheFacts.
Variable to_datetime : list string -> option (list Z).

Lemma memoized_miss (w : World) (now : nat) (p : Process) :
  cache_status now (slot p) <> FRESH ->
  memoized_get_datasets to_datetime w now p
  = match get_datasets to_datetime w (fetch_log p) with
    | (inr b, log') => (inr b, mkProcess (Some (mkEntry now b)) log')
    | (inl e, log') => (inl e, mkProcess (slot p) log')
    end.
Proof.
  intros H. unfold memoized_get_datasets.
  destruct (cache_status now (slot p)); try reflexivity; try congruence;
    destruct (slot p); reflexivity.
Qed.

Lemma memoized_hit (w : World) (now : nat) (p : Process) (entry : CacheEntry) :
  slot p = Some entry -> (now - stored_at entry < TTL)%nat ->
  memoized_get_datasets to_datetime w now p = (inr (stored entry), p).
Proof.
  intros Hs Hage. unfold memoized_get_datasets, cache_status. rewrite Hs.
  apply Nat.ltb_lt in Hage. rewrite Hage. reflexivity.
Qed.

Lemma memoized_stored (w : World) (now : nat) (p p1 : Process) (b : Bundle) :
  cache_status now (slot p) <> FRESH ->
  memoized_get_datasets to_datetime w now p = (inr b, p1) ->
  slot p1 = Some (mkEntry now b).
Proof.
  intros Hmiss H. rewrite memoized_miss in H by exact Hmiss.
  destruct (get_datasets to_datetime w (fetch_log p)) as [[e | b'] log'];
    [discriminate |].
  injection H as <- <-. reflexivity.
Qed.
End CacheFacts.

(** C1, amended.  When the last-update lookup fails, [get_datasets] fails
    too: it returns no bundle, and when the data stages succeed the
    exception it raises is the lookup's own.  No sentinel is substituted,
    and the memoised call stores nothing. *)
Theorem metadata_failure_aborts
    (to_datetime : list string -> option (list Z)) (w : World) (log : Log) (e : Exn)
    (H : commit_date (json_at w commits_url) = inl e) :
  (exists e', fst (get_datasets to_datetime w log) = inl e')
  /\ (forall dfs_global log1 dfs_country dfs_daily df_country_consol,
        load_global w log = (inr dfs_global, log1) ->
        build_country to_datetime dfs_global = inr dfs_country ->
        build_daily dfs_country = inr dfs_daily ->
        consolidate dfs_country dfs_daily = inr df_country_consol ->
        get_datasets to_datetime w log = (inl e, log1 ++ [commits_url]))
  /\ (forall now p, cache_status now (slot p) <> FRESH ->
        (exists e', fst (memoized_get_datasets to_datetime w now p) = inl e')
        /\ slot (snd (memoized_get_datasets to_datetime w now p)) = slot p).
Proof.
  assert (Hfail : forall log0, exists e', fst (get_datasets to_datetime w log0) = inl e').
  { intros log0. rewrite get_datasets_run.
    destruct (load_global w log0) as [[e0 | dfs_global] log1]; [now exists e0 |].
    destruct (build_country to_datetime dfs_global) as [e0 | dfs_country]; [now exists e0 |].
    destruct (build_daily dfs_country) as [e0 | dfs_daily]; [now exists e0 |].
    destruct (consolidate dfs_country dfs_daily) as [e0 | consol]; [now exists e0 |].
    rewrite H. now exists e. }
  split; [apply Hfail |]. split.
  - intros dfs_global log1 dfs_country dfs_daily consol Hg Hc Hd Hm.
    rewrite get_datasets_run, Hg, Hc, Hd, Hm, H. reflexivity.
  - intros now p Hmiss. rewrite memoized_miss by exact Hmiss.
    destruct (Hfail (fetch_log p)) as [e' He'].
    destruct (get_datasets to_datetime w (fetch_log p)) as [[e0 | b] log'];
      simpl in *; [| discriminate].
    split; [now exists e0 | reflexivity].
Qed.

(** C1 as stated fails: with the three CSV resources served and the
    commits endpoint out of reach, or answering with an empty list,
    [get_datasets] raises the exception of the lookup and returns no
    bundle; with the endpoint served, the same resources give a bundle. *)
Lemma metadata_failure_is_fatal :
  get_datasets mdy_to_datetime world_without_metadata []
  = (inl (URLError commits_url), fetch_cycle)
  /\ get_datasets mdy_to_datetime world_empty_commits [] = (inl IndexError, fetch_cycle)
  /\ csv_at world_without_metadata = csv_at sample_world
  /\ csv_at world_empty_commits = csv_at sample_world
  /\ exists tables,
       get_datasets mdy_to_datetime sample_world []
       = (inr (tables, JString "2020-04-09T01:00:00Z"), fetch_cycle).
Proof.
  split; [vm_compute; reflexivity |].
  split; [vm_compute; reflexivity |].
  split; [reflexivity |]. split; [reflexivity |].
  eexists. vm_compute. reflexivity.
Qed.

(** C9. When one of the three CSV resources cannot be fetched or parsed,
    [get_datasets] fails with the exception of the first failing resource,
    unchanged; every resource up to that one was requested once and
    nothing after it.  The memoised call, when the cache is not fresh,
    fails in the same way and leaves the cache slot what it was, so no
    bundle, partial or not, is stored. *)
Theorem csv_failure_aborts
    (to_datetime : list string -> option (list Z))
    (w : World) (now : nat) (p : Process) (url : string) (e : Exn)
    (Hurl : In url (map snd cssegis_data))
    (Hfail : csv_at w url = inl e)
    (Hmiss : cache_status now (slot p) <> FRESH) :
  exists (n : nat) (url1 : string) (e1 : Exn),
    nth_error (map snd cssegis_data) n = Some url1
    /\ csv_at w url1 = inl e1
    /\ (forall m u, (m < n)%nat -> nth_error (map snd cssegis_data) m = Some u ->
          exists t, csv_at w u = inr t)
    /\ (forall log,
          get_datasets to_datetime w log
          = (inl e1, log ++ firstn (S n) (map snd cssegis_data)))
    /\ memoized_get_datasets to_datetime w now p
       = (inl e1,
          mkProcess (slot p) (fetch_log p ++ firstn (S n) (map snd cssegis_data))).
Proof.
  rewrite memoized_miss by exact Hmiss.
  destruct (csv_at w confirmed_url) as [e1 | t1] eqn:E1.
  { exists 0%nat, confirmed_url, e1.
    assert (Hrun : forall log, get_datasets to_datetime w log
                     = (inl e1, log ++ firstn 1 (map snd cssegis_data)))
      by (intros log; rewrite get_datasets_run, load_global_run, E1; reflexivity).
    repeat split; try assumption; [intros m u Hm; lia | now rewrite Hrun]. }
  destruct (csv_at w deaths_url) as [e2 | t2] eqn:E2.
  { exists 1%nat, deaths_url, e2.
    assert (Hrun : forall log, get_datasets to_datetime w log
                     = (inl e2, log ++ firstn 2 (map snd cssegis_data)))
      by (intros log; rewrite get_datasets_run, load_global_run, E1, E2; reflexivity).
    repeat split; try assumption; [| now rewrite Hrun].
    intros m u Hm Hu. destruct m as [| m]; [| lia].
    injection Hu as <-. now exists t1. }
  destruct (csv_at w recovered_url) as [e3 | t3] eqn:E3.
  { exists 2%nat, recovered_url, e3.
    assert (Hrun : forall log, get_datasets to_datetime w log
                     = (inl e3, log ++ firstn 3 (map snd cssegis_data)))
      by (intros log; rewrite get_datasets_run, load_global_run, E1, E2, E3; reflexivity).
    repeat split; try assumption; [| now rewrite Hrun].
    intros m u Hm Hu. destruct m as [| [| m]]; [| | lia]; injection Hu as <-;
      [now exists t1 | now exists t2]. }
  exfalso. simpl in Hurl.
  destruct Hurl as [<- | [<- | [<- | []]]]; congruence.
Qed.

(** C8.  The cache has one slot and a TTL of 360.  After a call that ran
    the pipeline and returned a bundle, a call less than 360 time units
    later returns the same bundle, whatever the remote resources have
    become, and requests nothing; a call 360 time units later or more runs
    the pipeline once: it requests the resources of one cycle, each at
    most once and all four when it returns a bundle. *)
Theorem cache_ttl
    (to_datetime : list string -> option (list Z))
    (w1 w2 w3 : World) (t1 t2 t3 : nat) (p p1 : Process) (b : Bundle)
    (Hmiss : cache_status t1 (slot p) <> FRESH)
    (Hcall : memoized_get_datasets to_datetime w1 t1 p = (inr b, p1))
    (Hlater : (t1 <= t2)%nat) (Hwithin : (t2 - t1 < 360)%nat)
    (Hafter : (360 <= t3 - t1)%nat) :
  TTL = 360%nat
  /\ memoized_get_datasets to_datetime w2 t2 p1 = (inr b, p1)
  /\ memoized_get_datasets to_datetime w3 t3 p1
     = match get_datasets to_datetime w3 (fetch_log p1) with
       | (inr b', log') => (inr b', mkProcess (Some (mkEntry t3 b')) log')
       | (inl e, log') => (inl e, mkProcess (slot p1) log')
       end
  /\ exists n, (1 <= n <= 4)%nat
       /\ fetch_log (snd (memoized_get_datasets to_datetime w3 t3 p1))
          = fetch_log p1 ++ firstn n fetch_cycle
       /\ (forall b', fst (memoized_get_datasets to_datetime w3 t3 p1) = inr b' ->
             n = 4%nat).
Proof.
  assert (Hslot := memoized_stored _ _ _ _ _ _ Hmiss Hcall).
  split; [reflexivity |]. split.
  { rewrite (memoized_hit to_datetime w2 t2 p1 (mkEntry t1 b) Hslot); [reflexivity |].
    simpl. unfold TTL. exact Hwithin. }
  assert (Hstale : cache_status t3 (slot p1) <> FRESH).
  { rewrite Hslot. unfold cache_status. simpl.
    destruct (Nat.ltb_spec (t3 - t1) TTL) as [L | L]; [unfold TTL in L; lia | discriminate]. }
  split; [apply memoized_miss; exact Hstale |].
  rewrite memoized_miss by exact Hstale.
  destruct (get_datasets_log to_datetime w3 (fetch_log p1)) as [n [Hn [Hlog Hall]]].
  exists n. split; [exact Hn |].
  destruct (get_datasets to_datetime w3 (fetch_log p1)) as [[e | b'] log'];
    simpl in *; split; assumption.
Qed.

(** ** The frames of the pipeline meet the assumptions made above *)

Lemma groupby_diff_lengths (n : nat) (rs : list (Key * list Cell)) : forall prev,
  (forall c ps, dict_find c prev = Some ps -> List.length ps = n) ->
  Forall (fun r => List.length (snd r) = n) rs ->
  Forall (fun r => List.length (snd r) = n) (groupby_diff prev rs).
Proof.
  induction rs as [| [k cs] rs IH]; intros prev Hprev Hrs; simpl; [constructor |].
  apply Forall_cons_iff in Hrs. destruct Hrs as [Hcs Hrs']. simpl in Hcs.
  constructor.
  - simpl. rewrite diff_cells_length; [exact Hcs |].
    intros ps Hps. rewrite (Hprev _ _ Hps). now symmetry.
  - apply IH; [| exact Hrs'].
    intros c ps Hfind. destruct (string_dec c (fst k)) as [-> | Hne].
    + rewrite dict_find_set_same in Hfind. injection Hfind as <-. exact Hcs.
    + rewrite dict_find_set_other in Hfind by exact Hne. eapply Hprev; eassumption.
Qed.

Lemma daily_data_rectangular (dfcountry : Frame) (oldname newname : string) :
  rectangular dfcountry -> rectangular (daily_data dfcountry oldname newname).
Proof.
  unfold rectangular. intros H.
  assert (Hd := groupby_diff_lengths (List.length (columns dfcountry)) (rows dfcountry) []
                  (fun c ps (E : dict_find c [] = Some ps) =>
                     match E in _ = o return match o with Some _ => _ | None => True end
                     with eq_refl => I end) H).
  rewrite daily_data_rows. unfold daily_data, rename; cbn [columns].
  rewrite length_map. apply Forall_forall. intros r Hr.
  apply in_map_iff in Hr. destruct Hr as [r0 [<- Hr0]]. simpl.
  rewrite length_map. rewrite Forall_forall in Hd. now apply Hd.
Qed.

Section CountryDataFrames.
Variable to_datetime : list string -> option (list Z).

Lemma country_data_rectangular (df_cleaned : LongTable) (oldname newname : string)
    (ct : Frame) :
  country_data to_datetime df_cleaned oldname newname = inr ct ->
  rectangular ct /\ List.length (columns ct) = 1%nat.
Proof.
  intros H. destruct (country_data_inv _ _ _ _ _ H) as [dates [_ [_ [_ [Hcols Hrows]]]]].
  split; [| now rewrite Hcols].
  unfold rectangular. rewrite Hcols, Hrows. apply Forall_forall. intros r Hr.
  apply (proj1 (sort_by_In _ _ _)) in Hr. apply in_map_iff in Hr.
  destruct Hr as [g [<- Hg]]. apply groupby_sum_rows_In in Hg.
  destruct Hg as [r0 [k [_ [_ ->]]]]. reflexivity.
Qed.

Lemma country_data_columns (df_cleaned : LongTable) (newname : string) (ct : Frame) :
  country_data to_datetime df_cleaned "Cases" newname = inr ct ->
  columns ct = [newname].
Proof.
  intros H. destruct (country_data_inv _ _ _ _ _ H) as [dates [_ [_ [_ [Hcols _]]]]].
  exact Hcols.
Qed.

Lemma country_data_index_NoDup (df_cleaned : LongTable) (oldname newname : string)
    (ct : Frame) :
  country_data to_datetime df_cleaned oldname newname = inr ct -> NoDup (index ct).
Proof.
  intros H. destruct (country_data_rows _ _ _ _ _ H) as [dates [_ [_ [_ [_ [Hnd _]]]]]].
  exact Hnd.
Qed.

End CountryDataFrames.

Lemma rectangular_dict_3 (k1 k2 k3 : string) (f1 f2 f3 : Frame) :
  rectangular f1 -> rectangular f2 -> rectangular f3 ->
  rectangular_dict [(k1, f1); (k2, f2); (k3, f3)].
Proof.
  intros H1 H2 H3 k f. simpl.
  destruct (String.eqb k1 k); [intros E; now injection E as <- |].
  destruct (String.eqb k2 k); [intros E; now injection E as <- |].
  destruct (String.eqb k3 k); [intros E; now injection E as <- | discriminate].
Qed.

Section GetDatasets.
Variable to_datetime : list string -> option (list Z).

(** A bundle is returned exactly through these stages: the three CSV
    resources are served, their dates parse, the joins and the derived
    columns are computed from the country and daily tables, and the
    last-update lookup succeeds. *)
Lemma get_datasets_inv (w : World) (log log' : Log) (b : Bundle) :
  get_datasets to_datetime w log = (inr b, log') ->
  exists t1 t2 t3 c1 c2 c3 consol last_update,
    let dfs_global :=
      [ (Constants.TS_COVID19_CONFIRMED_GLOBAL, clean_data t1);
        (Constants.TS_COVID19_DEATHS_GLOBAL, clean_data t2);
        (Constants.TS_COVID19_RECOVERED_GLOBAL, clean_data t3) ] in
    let dfs_country :=
      [ (Constants.TS_COVID19_CONFIRMED_COUNTRY, c1);
        (Constants.TS_COVID19_DEATHS_COUNTRY, c2);
        (Constants.TS_COVID19_RECOVERED_COUNTRY, c3) ] in
    let dfs_daily :=
      [ (Constants.TS_COVID19_DAILY_NEW_CONFIRMED_COUNTRY,
         daily_data c1 "Total Confirmed" "Daily New Confirmed");
        (Constants.TS_COVID19_DAILY_NEW_DEATHS_COUNTRY,
         daily_data c2 "Total Deaths" "Daily New Deaths");
        (Constants.TS_COVID19_DAILY_NEW_RECOVERED_COUNTRY,
         daily_data c3 "Total Recovered" "Daily New Recovered") ] in
    csv_at w confirmed_url = inr t1
    /\ csv_at w deaths_url = inr t2
    /\ csv_at w recovered_url = inr t3
    /\ country_data to_datetime (clean_data t1) "Cases" "Total Confirmed" = inr c1
    /\ country_data to_datetime (clean_data t2) "Cases" "Total Deaths" = inr c2
    /\ country_data to_datetime (clean_data t3) "Cases" "Total Recovered" = inr c3
    /\ rectangular_dict dfs_country
    /\ rectangular_dict dfs_daily
    /\ consolidate dfs_country dfs_daily = inr consol
    /\ commit_date (json_at w commits_url) = inr last_update
    /\ b = (bundle_tables dfs_global dfs_country dfs_daily consol, last_update)
    /\ log' = log ++ fetch_cycle.
Proof.
  rewrite get_datasets_run, load_global_run.
  destruct (csv_at w confirmed_url) as [e | t1]; [discriminate |].
  destruct (csv_at w deaths_url) as [e | t2]; [discriminate |].
  destruct (csv_at w recovered_url) as [e | t3]; [discriminate |].
  rewrite build_country_run.
  destruct (country_data to_datetime (clean_data t1) "Cases" "Total Confirmed")
    as [e | c1] eqn:E1; [discriminate |].
  destruct (country_data to_datetime (clean_data t2) "Cases" "Total Deaths")
    as [e | c2] eqn:E2; [discriminate |].
  destruct (country_data to_datetime (clean_data t3) "Cases" "Total Recovered")
    as [e | c3] eqn:E3; [discriminate |].
  cbn [bindR]. rewrite build_daily_run.
  destruct (consolidate _ _) as [e | consol] eqn:Ec; [discriminate |].
  destruct (commit_date (json_at w commits_url)) as [e | last_update]; [discriminate |].
  intros H. injection H as <- <-.
  exists t1, t2, t3, c1, c2, c3, consol, last_update. cbv zeta.
  destruct (country_data_rectangular _ _ _ _ _ E1) as [R1 _].
  destruct (country_data_rectangular _ _ _ _ _ E2) as [R2 _].
  destruct (country_data_rectangular _ _ _ _ _ E3) as [R3 _].
  repeat match goal with |- _ /\ _ => split end; try reflexivity; try assumption.
  - now apply rectangular_dict_3.
  - apply rectangular_dict_3; now apply daily_data_rectangular.
  - unfold fetch_cycle. simpl. now rewrite <- app_assoc.
Qed.
End GetDatasets.

(** The consolidated table is returned under two identifiers. *)
Lemma bundle_tables_consolidated (l1 l2 l3 : LongTable) (c1 c2 c3 d1 d2 d3 consol : Frame) :
  let tables :=
    bundle_tables
      [ (Constants.TS_COVID19_CONFIRMED_GLOBAL, l1);
        (Constants.TS_COVID19_DEATHS_GLOBAL, l2);
        (Constants.TS_COVID19_RECOVERED_GLOBAL, l3) ]
      [ (Constants.TS_COVID19_CONFIRMED_COUNTRY, c1);
        (Constants.TS_COVID19_DEATHS_COUNTRY, c2);
        (Constants.TS_COVID19_RECOVERED_COUNTRY, c3) ]
      [ (Constants.TS_COVID19_DAILY_NEW_CONFIRMED_COUNTRY, d1);
        (Constants.TS_COVID19_DAILY_NEW_DEATHS_COUNTRY, d2);
        (Constants.TS_COVID19_DAILY_NEW_RECOVERED_COUNTRY, d3) ]
      consol in
  dict_find Constants.TS_COVID19_CONSOLIDATED_COUNTRY tables = Some (FrameT consol)
  /\ dict_find Constants.TS_COVID19_ACTIVE_CASES_COUNTRY tables = Some (FrameT consol)
  /\ dict_find Constants.TS_COVID19_CONFIRMED_COUNTRY tables = Some (FrameT c1)
  /\ List.length tables = 11%nat.
Proof. repeat split. Qed.

(** The end-to-end example of the specification. *)
Example end_to_end_example :
  exists confirmed,
    country_data mdy_to_datetime (clean_data sample_raw) "Cases" "Total Confirmed"
    = inr confirmed
    /\ country_column "B" 0 (rows confirmed) = [Int 0; Int 1; Int 2]
    /\ country_column "B" 0
         (rows (daily_data confirmed "Total Confirmed" "Daily New Confirmed"))
       = [Int 0; Int 1; Int 1]
    /\ country_column "A" 0 (rows confirmed) = [Int 1; Int 2; Int 4]
    /\ country_column "A" 0
         (rows (daily_data confirmed "Total Confirmed" "Daily New Confirmed"))
       = [Int 0; Int 1; Int 2].
Proof. eexists. split; [reflexivity |]. repeat split. Qed.

(** A missing total and its neighbours: both differences it takes part in
    are replaced by 0. *)
Example daily_data_missing_total :
  rows (daily_data (mkFrame ["Total Confirmed"]
                      [(("A", 1), [Int 5]); (("A", 2), [NaN]); (("A", 3), [Int 7])])
                   "Total Confirmed" "Daily New Confirmed")
  = [(("A", 1), [Int 0]); (("A", 2), [Int 0]); (("A", 3), [Int 0])].
Proof. reflexivity. Qed.

(** ** Concrete instances *)





Lemma consolidator_left_joins_witness :
  merge_all sample_dfs_country sample_dfs_daily = inr sample_merged
  /\ forall k, In k (index sample_merged) <-> In k (index sample_confirmed_country).
Proof.
  assert (H : merge_all sample_dfs_country sample_dfs_daily = inr sample_merged)
    by (vm_compute; reflexivity).
  split; [exact H |].
  destruct (consolidator_left_joins _ _ _ H)
    as [_ [confirmed [rights [Hc [_ [_ [Hin _]]]]]]].
  assert (E : confirmed = sample_confirmed_country)
    by (vm_compute in Hc; injection Hc as <-; reflexivity).
  rewrite <- E. exact Hin.
Defined.




Lemma metadata_failure_aborts_witness :
  commit_date (json_at world_without_metadata commits_url) = inl (URLError commits_url)
  /\ exists e', fst (get_datasets mdy_to_datetime world_without_metadata []) = inl e'.
Proof.
  assert (H : commit_date (json_at world_without_metadata commits_url)
              = inl (URLError commits_url)) by reflexivity.
  exact (conj H (proj1 (metadata_failure_aborts mdy_to_datetime
                          world_without_metadata [] (URLError commits_url) H))).
Defined.

Lemma csv_failure_aborts_witness :
  In deaths_url (map snd cssegis_data)
  /\ csv_at world_without_deaths deaths_url = inl (URLError deaths_url)
  /\ cache_status 0 (slot start) <> FRESH
  /\ exists (n : nat) (url1 : string) (e1 : Exn),
       nth_error (map snd cssegis_data) n = Some url1
       /\ csv_at world_without_deaths url1 = inl e1
       /\ (forall m u, (m < n)%nat -> nth_error (map snd cssegis_data) m = Some u ->
             exists t, csv_at world_without_deaths u = inr t)
       /\ (forall log,
             get_datasets mdy_to_datetime world_without_deaths log
             = (inl e1, log ++ firstn (S n) (map snd cssegis_data)))
       /\ memoized_get_datasets mdy_to_datetime world_without_deaths 0 start
          = (inl e1,
             mkProcess (slot start)
                       (fetch_log start ++ firstn (S n) (map snd cssegis_data))).
Proof.
  assert (Hurl : In deaths_url (map snd cssegis_data)) by (simpl; right; left; reflexivity).
  assert (Hfail : csv_at world_without_deaths deaths_url = inl (URLError deaths_url))
    by reflexivity.
  assert (Hmiss : cache_status 0 (slot start) <> FRESH) by (simpl; discriminate).
  exact (conj Hurl (conj Hfail (conj Hmiss
           (csv_failure_aborts mdy_to_datetime world_without_deaths 0 start
              deaths_url (URLError deaths_url) Hurl Hfail Hmiss)))).
Defined.

Lemma cache_ttl_witness :
  cache_status 0 (slot start) <> FRESH
  /\ memoized_get_datasets mdy_to_datetime sample_world 0 start
     = (inr sample_bundle, after_first_call)
  /\ memoized_get_datasets mdy_to_datetime world_without_deaths 359 after_first_call
     = (inr sample_bundle, after_first_call)
  /\ exists n, (1 <= n <= 4)%nat
       /\ fetch_log (snd (memoized_get_datasets mdy_to_datetime world_without_deaths 360
                            after_first_call))
          = fetch_log after_first_call ++ firstn n fetch_cycle.
Proof.
  assert (Hmiss : cache_status 0 (slot start) <> FRESH) by (simpl; discriminate).
  assert (Hcall : memoized_get_datasets mdy_to_datetime sample_world 0 start
                  = (inr sample_bundle, after_first_call)) by (vm_compute; reflexivity).
  assert (Hlater : (0 <= 359)%nat) by lia.
  assert (Hwithin : (359 - 0 < 360)%nat) by (simpl; lia).
  assert (Hafter : (360 <= 360 - 0)%nat) by (simpl; lia).
  destruct (cache_ttl mdy_to_datetime sample_world world_without_deaths world_without_deaths
              0 359 360 start after_first_call sample_bundle
              Hmiss Hcall Hlater Hwithin Hafter)
    as [_ [Hhit [_ [n [Hn [Hlog _]]]]]].
  split; [exact Hmiss |]. split; [exact Hcall |]. split; [exact Hhit |].
  exists n. exact (conj Hn Hlog).
Defined.

(* ------------------------------------------------------------------ *)
(** * Further properties of the pipeline *)

(** ** From the raw table to the country totals *)

(** X1. Every cell of the wide table lands in one record of the long table,
    with the label of its date column: the record of row [i] and date
    column [j] is at position [j * rows + i]. *)
Theorem clean_data_cells (df_raw : RawTable) (i j : nat) (r : RawRow)
    (Hi : nth_error (raw_rows df_raw) i = Some r)
    (Hj : (j < List.length (date_columns df_raw))%nat) :
  nth_error (clean_data df_raw) (j * List.length (raw_rows df_raw) + i)
  = Some (mkLongRow (raw_Province_State r) (raw_Country_Region r)
                    (raw_Lat r) (raw_Long r)
                    (nth j (date_columns df_raw) EmptyString)
                    (nth j (raw_cells r) NaN)).
Proof.
  assert (Hlt : (i < List.length (raw_rows df_raw))%nat)
    by (apply nth_error_Some; congruence).
  assert (Hpos : (j * List.length (raw_rows df_raw) + i < List.length (clean_data df_raw))%nat).
  { unfold clean_data. rewrite melt_from_length. nia. }
  rewrite (nth_error_nth' _ (mkLongRow None None NaN NaN EmptyString NaN) Hpos).
  f_equal. unfold clean_data.
  now rewrite (melt_from_nth _ _ 0 i j _ r Hlt Hj Hi).
Qed.


Lemma index_of_nth_NoDup (names : list string) : forall j,
  NoDup names -> (j < List.length names)%nat ->
  index_of (nth j names EmptyString) names = j.
Proof.
  induction names as [| name names IH]; intros j Hnd Hj; simpl in Hj; [lia |].
  inversion Hnd as [| ? ? Hnotin Hnd']; subst.
  destruct j as [| j]; simpl.
  - now rewrite String.eqb_refl.
  - destruct (String.eqb name (nth j names EmptyString)) eqn:E.
    + apply String.eqb_eq in E. exfalso. apply Hnotin. rewrite E. apply nth_In. lia.
    + f_equal. apply IH; [exact Hnd' | lia].
Qed.





Section CountryDataByLabel.
Variable to_datetime : list string -> option (list Z).

End CountryDataByLabel.


(** ** Sums *)

Lemma zsum_app (l l' : list Z) : zsum (l ++ l') = zsum l + zsum l'.
Proof. induction l as [| x l IH]; simpl; [reflexivity | rewrite IH; lia]. Qed.









(** ** The order of the records does not matter *)








Section SortUnique.
Context {A : Type} (leb : A -> A -> bool).
Hypothesis leb_total : forall a b, leb a b = true \/ leb b a = true.
Hypothesis leb_trans : forall a b c, leb a b = true -> leb b c = true -> leb a c = true.
Hypothesis leb_antisym : forall a b, leb a b = true -> leb b a = true -> a = b.


End SortUnique.









(** ** Dates that collide *)

Lemma record_label_in_levels (df_cleaned : LongTable) (r : LongRow) :
  In r df_cleaned -> Country_Region r <> None ->
  In (Date r) (date_levels (groupby_sum df_cleaned)).
Proof.
  intros Hr Hc. destruct (Country_Region r) as [c |] eqn:Ec; [| contradiction].
  apply date_levels_In.
  exists ((c, Date r),
          [group_sum (column_dtype (map Cases df_cleaned))
                     (map Cases (filter (in_group (c, Date r)) df_cleaned))]).
  split; [| reflexivity]. apply groupby_sum_rows_In.
  exists r, (c, Date r). split; [exact Hr |]. split; [| reflexivity].
  unfold group_key. now rewrite Ec.
Qed.

(** X5. Two date labels are never merged into one date: when [pd.to_datetime]
    gives two different labels of the input (labels of records that have
    a country) the same timestamp, [country_data] raises a ValueError
    instead of summing their records together or returning duplicate
    keys. *)
Theorem country_data_rejects_colliding_dates
    (to_datetime : list string -> option (list Z))
    (df_cleaned : LongTable) (oldname newname : string)
    (r1 r2 : LongRow) (dates : list Z)
    (H1 : In r1 df_cleaned) (H2 : In r2 df_cleaned)
    (Hc1 : Country_Region r1 <> None) (Hc2 : Country_Region r2 <> None)
    (Hlabels : Date r1 <> Date r2)
    (Hparse : to_datetime (date_levels (groupby_sum df_cleaned)) = Some dates)
    (Hsame : nth (index_of (Date r1) (date_levels (groupby_sum df_cleaned))) dates 0
             = nth (index_of (Date r2) (date_levels (groupby_sum df_cleaned))) dates 0) :
  exists msg, country_data to_datetime df_cleaned oldname newname = inl (ValueError msg).
Proof.
  unfold country_data, set_date_level. rewrite Hparse.
  destruct (Nat.ltb _ _) eqn:L; [eexists; reflexivity |].
  destruct (has_dup Z.eqb dates) eqn:D; [eexists; reflexivity |].
  exfalso. apply Hlabels.
  apply Nat.ltb_ge in L. apply (has_dup_false _ Z.eqb_eq) in D.
  apply (level_date_inj (date_levels (groupby_sum df_cleaned)) dates); auto;
    now apply record_label_in_levels.
Qed.

(** ** Daily values add up to the increase of the total *)



(** ** The derived columns leave the joined table alone *)

Lemma col_index_None (name : string) (cols : list string) :
  col_index name cols = None <-> ~ In name cols.
Proof.
  induction cols as [| c cols IH]; simpl; [tauto |].
  destruct (String.eqb c name) eqn:E.
  - apply String.eqb_eq in E. split; [discriminate | intros H; exfalso; apply H; now left].
  - apply String.eqb_neq in E. destruct (col_index name cols); simpl.
    + split; [discriminate |]. intros H. exfalso. apply H. right.
      destruct IH as [_ IH]. destruct (in_dec string_dec name cols) as [Hin | Hnot];
        [exact Hin | specialize (IH Hnot); discriminate].
    + split; [| reflexivity]. intros _ [Hc | Hin]; [congruence |].
      now apply (proj1 IH).
Qed.

Lemma set_column_columns_new (name : string) (values : list Cell) (df : Frame) :
  ~ In name (columns df) -> columns (set_column name values df) = columns df ++ [name].
Proof.
  intros H. apply col_index_None in H. unfold set_column. now rewrite H.
Qed.

Lemma derived_columns_form (df0 df : Frame) :
  rectangular df0 -> derived_columns df0 = inr df ->
  exists v1 v2 v3,
    List.length v1 = List.length (rows df0)
    /\ rectangular (set_column "Total Active Cases" v1 df0)
    /\ List.length v2 = List.length (rows (set_column "Total Active Cases" v1 df0))
    /\ rectangular (set_column "Share of Recovered - Closed Cases" v2
                      (set_column "Total Active Cases" v1 df0))
    /\ List.length v3
       = List.length (rows (set_column "Share of Recovered - Closed Cases" v2
                              (set_column "Total Active Cases" v1 df0)))
    /\ df = set_column "Death to Cases Ratio" v3
              (set_column "Share of Recovered - Closed Cases" v2
                 (set_column "Total Active Cases" v1 df0)).
Proof.
  intros Hrect H. unfold derived_columns in H.
  destruct (get_column "Total Confirmed" df0) as [e | confirmed] eqn:Ec; [discriminate |].
  destruct (get_column "Total Deaths" df0) as [e | deaths] eqn:Ed; [discriminate |].
  destruct (get_column "Total Recovered" df0) as [e | recovered] eqn:Er; [discriminate |].
  cbn [bindR] in H.
  assert (Lc := get_column_length _ _ _ Ec).
  assert (Ld := get_column_length _ _ _ Ed).
  assert (Lr := get_column_length _ _ _ Er).
  fold (active_cases confirmed deaths recovered) in H.
  set (v1 := active_cases confirmed deaths recovered) in *.
  assert (L1 : List.length v1 = List.length (rows df0)).
  { unfold v1. rewrite active_cases_length; congruence. }
  set (df1 := set_column "Total Active Cases" v1 df0) in *.
  assert (R1 : rectangular df1) by (apply set_column_rectangular; assumption).
  assert (N1 : List.length (rows df1) = List.length (rows df0))
    by (apply set_column_rows_length; assumption).
  assert (Er1 : get_column "Total Recovered" df1 = inr recovered).
  { unfold df1. rewrite get_set_other by (assumption || names_differ). exact Er. }
  assert (Ed1 : get_column "Total Deaths" df1 = inr deaths).
  { unfold df1. rewrite get_set_other by (assumption || names_differ). exact Ed. }
  assert (Ec1 : get_column "Total Confirmed" df1 = inr confirmed).
  { unfold df1. rewrite get_set_other by (assumption || names_differ). exact Ec. }
  rewrite Er1, Ed1 in H. cbn [bindR] in H.
  fold (recovered_share recovered deaths) in H.
  set (v2 := recovered_share recovered deaths) in *.
  assert (L2 : List.length v2 = List.length (rows df1)).
  { unfold v2. rewrite recovered_share_length; congruence. }
  set (df2 := set_column "Share of Recovered - Closed Cases" v2 df1) in *.
  assert (R2 : rectangular df2) by (apply set_column_rectangular; assumption).
  assert (N2 : List.length (rows df2) = List.length (rows df1))
    by (apply set_column_rows_length; assumption).
  assert (Ed2 : get_column "Total Deaths" df2 = inr deaths).
  { unfold df2. rewrite get_set_other by (assumption || names_differ). exact Ed1. }
  assert (Ec2 : get_column "Total Confirmed" df2 = inr confirmed).
  { unfold df2. rewrite get_set_other by (assumption || names_differ). exact Ec1. }
  rewrite Ed2, Ec2 in H. cbn [bindR] in H.
  fold (death_ratio deaths confirmed) in H.
  set (v3 := death_ratio deaths confirmed) in *.
  assert (L3 : List.length v3 = List.length (rows df2)).
  { unfold v3. rewrite death_ratio_length; congruence. }
  injection H as <-.
  exists v1, v2, v3. repeat split; assumption.
Qed.

Lemma derived_columns_other (df0 df : Frame) (name : string) :
  rectangular df0 -> derived_columns df0 = inr df ->
  name <> "Total Active Cases" ->
  name <> "Share of Recovered - Closed Cases" ->
  name <> "Death to Cases Ratio" ->
  get_column name df = get_column name df0.
Proof.
  intros Hrect H N1 N2 N3.
  destruct (derived_columns_form df0 df Hrect H)
    as [v1 [v2 [v3 [L1 [R1 [L2 [R2 [L3 ->]]]]]]]].
  rewrite get_set_other by assumption.
  rewrite get_set_other by assumption.
  now rewrite get_set_other by assumption.
Qed.

Lemma derived_columns_facts (df0 df : Frame)
    (Hrect : rectangular df0) (H : derived_columns df0 = inr df) :
  index df = index df0
  /\ List.length (rows df) = List.length (rows df0)
  /\ rectangular df
  /\ (forall name,
        name <> "Total Active Cases" ->
        name <> "Share of Recovered - Closed Cases" ->
        name <> "Death to Cases Ratio" ->
        get_column name df = get_column name df0)
  /\ (~ In "Total Active Cases" (columns df0) ->
      ~ In "Share of Recovered - Closed Cases" (columns df0) ->
      ~ In "Death to Cases Ratio" (columns df0) ->
      columns df
      = columns df0 ++ ["Total Active Cases"; "Share of Recovered - Closed Cases";
                        "Death to Cases Ratio"]).
Proof.
  destruct (derived_columns_form df0 df Hrect H)
    as [v1 [v2 [v3 [L1 [R1 [L2 [R2 [L3 ->]]]]]]]].
  split.
  { rewrite !set_column_index by assumption. reflexivity. }
  split.
  { rewrite !set_column_rows_length by assumption. reflexivity. }
  split; [apply set_column_rectangular; assumption |].
  split.
  { intros name N1 N2 N3.
    rewrite get_set_other by assumption.
    rewrite get_set_other by assumption.
    now rewrite get_set_other by assumption. }
  intros A1 A2 A3.
  assert (C1 := set_column_columns_new "Total Active Cases" v1 df0 A1).
  assert (C2 : columns (set_column "Share of Recovered - Closed Cases" v2
                          (set_column "Total Active Cases" v1 df0))
               = (columns df0 ++ ["Total Active Cases"])
                 ++ ["Share of Recovered - Closed Cases"]).
  { rewrite <- C1. apply set_column_columns_new. rewrite C1.
    intros Hin. apply in_app_or in Hin. destruct Hin as [Hin | [Hin | []]];
      [contradiction | discriminate]. }
  rewrite set_column_columns_new.
  - rewrite C2, <- !app_assoc. reflexivity.
  - rewrite C2. intros Hin. apply in_app_or in Hin. destruct Hin as [Hin | [Hin | []]];
      [| discriminate].
    apply in_app_or in Hin. destruct Hin as [Hin | [Hin | []]];
      [contradiction | discriminate].
Qed.

(** X7. Computing the derived columns changes nothing of the joined table:
    the index and the number of rows stay, every column other than the
    three it writes keeps its cells, and when the three labels are new
    they are appended, in order, after the joined columns. *)
Theorem derived_columns_preserve (df0 df : Frame)
    (Hrect : rectangular df0) (H : derived_columns df0 = inr df) :
  index df = index df0
  /\ List.length (rows df) = List.length (rows df0)
  /\ rectangular df
  /\ (forall name,
        name <> "Total Active Cases" ->
        name <> "Share of Recovered - Closed Cases" ->
        name <> "Death to Cases Ratio" ->
        get_column name df = get_column name df0)
  /\ (~ In "Total Active Cases" (columns df0) ->
      ~ In "Share of Recovered - Closed Cases" (columns df0) ->
      ~ In "Death to Cases Ratio" (columns df0) ->
      columns df
      = columns df0 ++ ["Total Active Cases"; "Share of Recovered - Closed Cases";
                        "Death to Cases Ratio"]).
Proof. exact (derived_columns_facts df0 df Hrect H). Qed.


(** ** The consolidated table of a bundle *)

Lemma joined_cells_length (k : Key) (right : Frame) :
  rectangular right -> List.length (joined_cells k right) = List.length (columns right).
Proof.
  intros Hr. unfold joined_cells.
  destruct (filter (fun r => key_eqb (fst r) k) (rows right)) as [| m ms] eqn:F.
  - apply length_map.
  - assert (Hm : In m (filter (fun r => key_eqb (fst r) k) (rows right)))
      by (rewrite F; now left).
    apply filter_In in Hm. unfold rectangular in Hr. rewrite Forall_forall in Hr.
    apply Hr. tauto.
Qed.

Lemma single_cell (l : list Cell) : List.length l = 1%nat -> l = [nth 0 l NaN].
Proof. destruct l as [| x [| y l]]; simpl; intros H; try discriminate. reflexivity. Qed.

Lemma merge_all_run (c1 c2 c3 d1 d2 d3 : Frame) :
  merge_all
    [ (Constants.TS_COVID19_CONFIRMED_COUNTRY, c1);
      (Constants.TS_COVID19_DEATHS_COUNTRY, c2);
      (Constants.TS_COVID19_RECOVERED_COUNTRY, c3) ]
    [ (Constants.TS_COVID19_DAILY_NEW_CONFIRMED_COUNTRY, d1);
      (Constants.TS_COVID19_DAILY_NEW_DEATHS_COUNTRY, d2);
      (Constants.TS_COVID19_DAILY_NEW_RECOVERED_COUNTRY, d3) ]
  = inr (fold_left merge_left [d1; d2; c2; c3; d3] c1).
Proof. reflexivity. Qed.

Lemma value_at_row (t : Frame) (r : Key * list Cell) :
  NoDup (index t) -> In r (rows t) -> value_at t (fst r) = nth 0 (snd r) NaN.
Proof.
  intros Hnd Hin. unfold value_at.
  rewrite (joined_cells_present (fst r) (snd r) t Hnd); [reflexivity |].
  now destruct r.
Qed.

Lemma value_at_absent (t : Frame) (k : Key) :
  List.length (columns t) = 1%nat -> ~ In k (index t) -> value_at t k = NaN.
Proof.
  intros Hc Hk. unfold value_at. rewrite joined_cells_absent by exact Hk.
  destruct (columns t) as [| c [| c' cs]]; try discriminate. reflexivity.
Qed.

(** The joined table of three country tables and their daily tables, cell
    by cell. *)
Lemma pipeline_merged (c1 c2 c3 : Frame) :
  columns c1 = ["Total Confirmed"] -> columns c2 = ["Total Deaths"] ->
  columns c3 = ["Total Recovered"] ->
  rectangular c1 -> rectangular c2 -> rectangular c3 ->
  NoDup (index c1) -> NoDup (index c2) -> NoDup (index c3) ->
  let d1 := daily_data c1 "Total Confirmed" "Daily New Confirmed" in
  let d2 := daily_data c2 "Total Deaths" "Daily New Deaths" in
  let d3 := daily_data c3 "Total Recovered" "Daily New Recovered" in
  let merged := fold_left merge_left [d1; d2; c2; c3; d3] c1 in
  columns merged
  = ["Total Confirmed"; "Daily New Confirmed"; "Daily New Deaths";
     "Total Deaths"; "Total Recovered"; "Daily New Recovered"]
  /\ rectangular merged
  /\ rows merged
     = map (fun l => (fst l,
                      [nth 0 (snd l) NaN; value_at d1 (fst l); value_at d2 (fst l);
                       value_at c2 (fst l); value_at c3 (fst l); value_at d3 (fst l)]))
           (rows c1).
Proof.
  intros C1 C2 C3 R1 R2 R3 N1 N2 N3 d1 d2 d3 merged.
  assert (D1 : columns d1 = ["Daily New Confirmed"])
    by (unfold d1, daily_data, rename; cbn [columns]; rewrite C1; reflexivity).
  assert (D2 : columns d2 = ["Daily New Deaths"])
    by (unfold d2, daily_data, rename; cbn [columns]; rewrite C2; reflexivity).
  assert (D3 : columns d3 = ["Daily New Recovered"])
    by (unfold d3, daily_data, rename; cbn [columns]; rewrite C3; reflexivity).
  assert (RD1 : rectangular d1) by now apply daily_data_rectangular.
  assert (RD2 : rectangular d2) by now apply daily_data_rectangular.
  assert (RD3 : rectangular d3) by now apply daily_data_rectangular.
  assert (ND1 : NoDup (index d1)) by (unfold d1; now rewrite daily_data_index).
  assert (ND2 : NoDup (index d2)) by (unfold d2; now rewrite daily_data_index).
  assert (ND3 : NoDup (index d3)) by (unfold d3; now rewrite daily_data_index).
  split.
  { unfold merged. cbn [fold_left]. unfold merge_left. cbn [columns].
    rewrite C1, C2, C3, D1, D2, D3. reflexivity. }
  split.
  { unfold merged. apply fold_merge_rectangular; [| exact R1].
    repeat constructor; assumption. }
  unfold merged. rewrite fold_merge_rows by (repeat constructor; assumption).
  apply map_ext_in. intros l Hl. f_equal. cbn [map List.concat].
  assert (L0 : List.length (snd l) = 1%nat).
  { unfold rectangular in R1. rewrite Forall_forall in R1.
    rewrite (R1 l Hl), C1. reflexivity. }
  assert (J : forall t, rectangular t -> List.length (columns t) = 1%nat ->
            joined_cells (fst l) t = [value_at t (fst l)]).
  { intros t Rt Ct. unfold value_at. apply single_cell.
    now rewrite joined_cells_length. }
  rewrite (single_cell _ L0) at 1.
  rewrite (J d1 RD1), (J d2 RD2), (J c2 R2), (J c3 R3), (J d3 RD3);
    try (rewrite ?C2, ?C3, ?D1, ?D2, ?D3; reflexivity).
Qed.

Lemma pipeline_merged_columns (c1 c2 c3 : Frame) :
  columns c1 = ["Total Confirmed"] -> columns c2 = ["Total Deaths"] ->
  columns c3 = ["Total Recovered"] ->
  rectangular c1 -> rectangular c2 -> rectangular c3 ->
  NoDup (index c1) -> NoDup (index c2) -> NoDup (index c3) ->
  let d1 := daily_data c1 "Total Confirmed" "Daily New Confirmed" in
  let d2 := daily_data c2 "Total Deaths" "Daily New Deaths" in
  let d3 := daily_data c3 "Total Recovered" "Daily New Recovered" in
  let merged := fold_left merge_left [d1; d2; c2; c3; d3] c1 in
  index merged = index c1
  /\ get_column "Total Confirmed" merged
     = inr (map (fun r => nth 0 (snd r) NaN) (rows c1))
  /\ get_column "Daily New Confirmed" merged = inr (map (value_at d1) (index c1))
  /\ get_column "Daily New Deaths" merged = inr (map (value_at d2) (index c1))
  /\ get_column "Total Deaths" merged = inr (map (value_at c2) (index c1))
  /\ get_column "Total Recovered" merged = inr (map (value_at c3) (index c1))
  /\ get_column "Daily New Recovered" merged = inr (map (value_at d3) (index c1)).
Proof.
  intros C1 C2 C3 R1 R2 R3 N1 N2 N3 d1 d2 d3 merged.
  destruct (pipeline_merged c1 c2 c3 C1 C2 C3 R1 R2 R3 N1 N2 N3) as [Hcols [_ Hrows]].
  fold d1 d2 d3 merged in Hcols, Hrows.
  split; [unfold index; rewrite Hrows, map_map; reflexivity |].
  unfold get_column. rewrite Hcols, Hrows. cbn [col_index String.eqb Ascii.eqb Bool.eqb option_map].
  unfold index. rewrite !map_map. cbn [snd fst nth].
  repeat split.
Qed.

Section ConsolidatedFacts.
Variable to_datetime : list string -> option (list Z).

(** The stages of a run that returns a bundle, with what the country
    tables are known to satisfy. *)
Lemma get_datasets_tables (w : World) (log log' : Log) (b : Bundle) :
  get_datasets to_datetime w log = (inr b, log') ->
  exists t1 t2 t3 c1 c2 c3 merged consol last_update,
    csv_at w confirmed_url = inr t1
    /\ csv_at w deaths_url = inr t2
    /\ csv_at w recovered_url = inr t3
    /\ country_data to_datetime (clean_data t1) "Cases" "Total Confirmed" = inr c1
    /\ country_data to_datetime (clean_data t2) "Cases" "Total Deaths" = inr c2
    /\ country_data to_datetime (clean_data t3) "Cases" "Total Recovered" = inr c3
    /\ merged
       = fold_left merge_left
           [ daily_data c1 "Total Confirmed" "Daily New Confirmed";
             daily_data c2 "Total Deaths" "Daily New Deaths";
             c2; c3;
             daily_data c3 "Total Recovered" "Daily New Recovered" ] c1
    /\ derived_columns merged = inr consol
    /\ commit_date (json_at w commits_url) = inr last_update
    /\ b = (bundle_tables
              [ (Constants.TS_COVID19_CONFIRMED_GLOBAL, clean_data t1);
                (Constants.TS_COVID19_DEATHS_GLOBAL, clean_data t2);
                (Constants.TS_COVID19_RECOVERED_GLOBAL, clean_data t3) ]
              [ (Constants.TS_COVID19_CONFIRMED_COUNTRY, c1);
                (Constants.TS_COVID19_DEATHS_COUNTRY, c2);
                (Constants.TS_COVID19_RECOVERED_COUNTRY, c3) ]
              [ (Constants.TS_COVID19_DAILY_NEW_CONFIRMED_COUNTRY,
                 daily_data c1 "Total Confirmed" "Daily New Confirmed");
                (Constants.TS_COVID19_DAILY_NEW_DEATHS_COUNTRY,
                 daily_data c2 "Total Deaths" "Daily New Deaths");
                (Constants.TS_COVID19_DAILY_NEW_RECOVERED_COUNTRY,
                 daily_data c3 "Total Recovered" "Daily New Recovered") ]
              consol,
            last_update).
Proof.
  intros H. destruct (get_datasets_inv to_datetime w log log' b H)
    as [t1 [t2 [t3 [c1 [c2 [c3 [consol [last_update Hall]]]]]]]].
  cbv zeta in Hall.
  destruct Hall as [H1 [H2 [H3 [E1 [E2 [E3 [_ [_ [Hc [Hd [Hb _]]]]]]]]]]].
  destruct (consolidate_inv _ _ _ Hc) as [merged [Hm Hdc]].
  rewrite merge_all_run in Hm. injection Hm as Hm.
  exists t1, t2, t3, c1, c2, c3, merged, consol, last_update.
  repeat split; try assumption. now symmetry.
Qed.
End ConsolidatedFacts.

Lemma bundle_consolidated
    (to_datetime : list string -> option (list Z))
    (w : World) (log log' : Log) (b : Bundle)
    (H : get_datasets to_datetime w log = (inr b, log')) :
  exists confirmed deaths recovered consol : Frame,
    let daily_confirmed := daily_data confirmed "Total Confirmed" "Daily New Confirmed" in
    let daily_deaths := daily_data deaths "Total Deaths" "Daily New Deaths" in
    let daily_recovered := daily_data recovered "Total Recovered" "Daily New Recovered" in
    dict_find Constants.TS_COVID19_CONFIRMED_COUNTRY (fst b) = Some (FrameT confirmed)
    /\ dict_find Constants.TS_COVID19_DEATHS_COUNTRY (fst b) = Some (FrameT deaths)
    /\ dict_find Constants.TS_COVID19_RECOVERED_COUNTRY (fst b) = Some (FrameT recovered)
    /\ dict_find Constants.TS_COVID19_DAILY_NEW_CONFIRMED_COUNTRY (fst b)
       = Some (FrameT daily_confirmed)
    /\ dict_find Constants.TS_COVID19_DAILY_NEW_DEATHS_COUNTRY (fst b)
       = Some (FrameT daily_deaths)
    /\ dict_find Constants.TS_COVID19_DAILY_NEW_RECOVERED_COUNTRY (fst b)
       = Some (FrameT daily_recovered)
    /\ dict_find Constants.TS_COVID19_CONSOLIDATED_COUNTRY (fst b) = Some (FrameT consol)
    /\ dict_find Constants.TS_COVID19_ACTIVE_CASES_COUNTRY (fst b) = Some (FrameT consol)
    /\ columns consol
       = ["Total Confirmed"; "Daily New Confirmed"; "Daily New Deaths";
          "Total Deaths"; "Total Recovered"; "Daily New Recovered";
          "Total Active Cases"; "Share of Recovered - Closed Cases";
          "Death to Cases Ratio"]
    /\ rectangular consol
    /\ index consol = index confirmed
    /\ NoDup (index confirmed) /\ NoDup (index deaths) /\ NoDup (index recovered)
    /\ get_column "Total Confirmed" consol
       = inr (map (fun r => nth 0 (snd r) NaN) (rows confirmed))
    /\ get_column "Daily New Confirmed" consol
       = inr (map (fun r => nth 0 (snd r) NaN) (rows daily_confirmed))
    /\ get_column "Daily New Deaths" consol
       = inr (map (value_at daily_deaths) (index confirmed))
    /\ get_column "Total Deaths" consol = inr (map (value_at deaths) (index confirmed))
    /\ get_column "Total Recovered" consol
       = inr (map (value_at recovered) (index confirmed))
    /\ get_column "Daily New Recovered" consol
       = inr (map (value_at daily_recovered) (index confirmed)).
Proof.
  destruct (get_datasets_tables to_datetime w log log' b H)
    as [t1 [t2 [t3 [c1 [c2 [c3 [merged [consol [last_update Hall]]]]]]]]].
  destruct Hall as [_ [_ [_ [E1 [E2 [E3 [Hm [Hdc [_ ->]]]]]]]]].
  assert (C1 := country_data_columns _ _ _ _ E1).
  assert (C2 := country_data_columns _ _ _ _ E2).
  assert (C3 := country_data_columns _ _ _ _ E3).
  destruct (country_data_rectangular _ _ _ _ _ E1) as [R1 _].
  destruct (country_data_rectangular _ _ _ _ _ E2) as [R2 _].
  destruct (country_data_rectangular _ _ _ _ _ E3) as [R3 _].
  assert (N1 := country_data_index_NoDup _ _ _ _ _ E1).
  assert (N2 := country_data_index_NoDup _ _ _ _ _ E2).
  assert (N3 := country_data_index_NoDup _ _ _ _ _ E3).
  destruct (pipeline_merged c1 c2 c3 C1 C2 C3 R1 R2 R3 N1 N2 N3) as [Hcols [Hrect _]].
  destruct (pipeline_merged_columns c1 c2 c3 C1 C2 C3 R1 R2 R3 N1 N2 N3)
    as [Hidx [G0 [G1 [G2 [G3 [G4 G5]]]]]].
  cbv zeta in Hcols, Hrect, Hidx, G0, G1, G2, G3, G4, G5.
  rewrite <- Hm in Hcols, Hrect, Hidx, G0, G1, G2, G3, G4, G5.
  destruct (derived_columns_facts merged consol Hrect Hdc)
    as [Hindex [_ [Hrc [Hother Hnew]]]].
  exists c1, c2, c3, consol. cbv zeta. cbn [fst].
  repeat match goal with |- _ /\ _ => split end;
    try reflexivity; try assumption.
  - rewrite Hnew, Hcols; [reflexivity | | |]; rewrite Hcols; simpl;
      intuition discriminate.
  - congruence.
  - rewrite Hother by names_differ. exact G0.
  - rewrite Hother by names_differ. rewrite G1. f_equal.
    rewrite <- (daily_data_index c1 "Total Confirmed" "Daily New Confirmed").
    unfold index. rewrite map_map. apply map_ext_in. intros r Hr.
    apply value_at_row; [| exact Hr].
    now rewrite daily_data_index.
  - rewrite Hother by names_differ. exact G2.
  - rewrite Hother by names_differ. exact G3.
  - rewrite Hother by names_differ. exact G4.
  - rewrite Hother by names_differ. exact G5.
Qed.

(** X8. In every bundle [get_datasets] returns, the consolidated table (under
    both of its identifiers) has one row per key of the confirmed country
    table, in that table's order, and nine columns.  Its first six columns
    are the confirmed totals and, aligned by (country, date), the values
    of the daily and total tables of the bundle: the value the table has
    at the key, or a missing value when the table has no such key. *)
Theorem consolidated_alignment
    (to_datetime : list string -> option (list Z))
    (w : World) (log log' : Log) (b : Bundle)
    (H : get_datasets to_datetime w log = (inr b, log')) :
  exists confirmed deaths recovered consol : Frame,
    let daily_confirmed := daily_data confirmed "Total Confirmed" "Daily New Confirmed" in
    let daily_deaths := daily_data deaths "Total Deaths" "Daily New Deaths" in
    let daily_recovered := daily_data recovered "Total Recovered" "Daily New Recovered" in
    dict_find Constants.TS_COVID19_CONFIRMED_COUNTRY (fst b) = Some (FrameT confirmed)
    /\ dict_find Constants.TS_COVID19_DEATHS_COUNTRY (fst b) = Some (FrameT deaths)
    /\ dict_find Constants.TS_COVID19_RECOVERED_COUNTRY (fst b) = Some (FrameT recovered)
    /\ dict_find Constants.TS_COVID19_DAILY_NEW_CONFIRMED_COUNTRY (fst b)
       = Some (FrameT daily_confirmed)
    /\ dict_find Constants.TS_COVID19_DAILY_NEW_DEATHS_COUNTRY (fst b)
       = Some (FrameT daily_deaths)
    /\ dict_find Constants.TS_COVID19_DAILY_NEW_RECOVERED_COUNTRY (fst b)
       = Some (FrameT daily_recovered)
    /\ dict_find Constants.TS_COVID19_CONSOLIDATED_COUNTRY (fst b) = Some (FrameT consol)
    /\ dict_find Constants.TS_COVID19_ACTIVE_CASES_COUNTRY (fst b) = Some (FrameT consol)
    /\ columns consol
       = ["Total Confirmed"; "Daily New Confirmed"; "Daily New Deaths";
          "Total Deaths"; "Total Recovered"; "Daily New Recovered";
          "Total Active Cases"; "Share of Recovered - Closed Cases";
          "Death to Cases Ratio"]
    /\ rectangular consol
    /\ index consol = index confirmed
    /\ NoDup (index confirmed) /\ NoDup (index deaths) /\ NoDup (index recovered)
    /\ get_column "Total Confirmed" consol
       = inr (map (fun r => nth 0 (snd r) NaN) (rows confirmed))
    /\ get_column "Daily New Confirmed" consol
       = inr (map (fun r => nth 0 (snd r) NaN) (rows daily_confirmed))
    /\ get_column "Daily New Deaths" consol
       = inr (map (value_at daily_deaths) (index confirmed))
    /\ get_column "Total Deaths" consol = inr (map (value_at deaths) (index confirmed))
    /\ get_column "Total Recovered" consol
       = inr (map (value_at recovered) (index confirmed))
    /\ get_column "Daily New Recovered" consol
       = inr (map (value_at daily_recovered) (index confirmed)).
Proof. exact (bundle_consolidated to_datetime w log log' b H). Qed.


(** X10. The bundle has the eleven dataset identifiers, each once and in this
    order; the three global datasets are the melted CSV tables as they
    were read, and the last update is what the lookup returned. *)
Theorem bundle_identifiers
    (to_datetime : list string -> option (list Z))
    (w : World) (log log' : Log) (b : Bundle)
    (H : get_datasets to_datetime w log = (inr b, log')) :
  map fst (fst b)
  = [ Constants.TS_COVID19_CONFIRMED_GLOBAL; Constants.TS_COVID19_DEATHS_GLOBAL;
      Constants.TS_COVID19_RECOVERED_GLOBAL; Constants.TS_COVID19_CONFIRMED_COUNTRY;
      Constants.TS_COVID19_DEATHS_COUNTRY; Constants.TS_COVID19_RECOVERED_COUNTRY;
      Constants.TS_COVID19_DAILY_NEW_CONFIRMED_COUNTRY;
      Constants.TS_COVID19_DAILY_NEW_DEATHS_COUNTRY;
      Constants.TS_COVID19_DAILY_NEW_RECOVERED_COUNTRY;
      Constants.TS_COVID19_ACTIVE_CASES_COUNTRY;
      Constants.TS_COVID19_CONSOLIDATED_COUNTRY ]
  /\ (exists t1 t2 t3,
        csv_at w confirmed_url = inr t1
        /\ csv_at w deaths_url = inr t2
        /\ csv_at w recovered_url = inr t3
        /\ dict_find Constants.TS_COVID19_CONFIRMED_GLOBAL (fst b)
           = Some (LongT (clean_data t1))
        /\ dict_find Constants.TS_COVID19_DEATHS_GLOBAL (fst b)
           = Some (LongT (clean_data t2))
        /\ dict_find Constants.TS_COVID19_RECOVERED_GLOBAL (fst b)
           = Some (LongT (clean_data t3)))
  /\ commit_date (json_at w commits_url) = inr (snd b)
  /\ log' = log ++ fetch_cycle.
Proof.
  destruct (get_datasets_inv to_datetime w log log' b H)
    as [t1 [t2 [t3 [c1 [c2 [c3 [consol [last_update Hall]]]]]]]].
  cbv zeta in Hall.
  destruct Hall as [H1 [H2 [H3 [_ [_ [_ [_ [_ [_ [Hd [-> ->]]]]]]]]]]].
  split; [reflexivity |]. split.
  - exists t1, t2, t3. repeat split; assumption.
  - split; [exact Hd | reflexivity].
Qed.

(** ** The last-update lookup *)

(** X11. [_get_last_commit_date] returns a value exactly when the response is a
    list whose first element is an object with an object [commit], in it an
    object [committer], in it a field [date]; the value is that field (the
    last one of that name), whatever the other commits of the list are.
    The endpoint is requested once, whether the lookup succeeds or not. *)
Theorem last_commit_date_shape (w : World) (url : string) (log : Log) (v : json) :
  (fst (_get_last_commit_date w url log) = inr v
   <-> exists first rest commit committer,
         json_at w url = inr (JArray (JObject first :: rest))
         /\ dict_find "commit" (rev first) = Some (JObject commit)
         /\ dict_find "committer" (rev commit) = Some (JObject committer)
         /\ dict_find "date" (rev committer) = Some v)
  /\ snd (_get_last_commit_date w url log) = log ++ [url].
Proof.
  rewrite last_commit_date_run. cbn [fst snd]. split; [| reflexivity].
  unfold commit_date, subscript_0, subscript, dict_get. split.
  - destruct (json_at w url) as [e | response]; [discriminate |]. cbn [bindR].
    destruct response as [| | | s | items | fields]; try discriminate.
    + destruct s; discriminate.
    + destruct items as [| c0 rest]; [discriminate |]. cbn [bindR].
      destruct c0 as [| | | | | first]; try discriminate.
      destruct (dict_find "commit" (rev first)) as [c1 |] eqn:E1; [| discriminate].
      cbn [bindR].
      destruct c1 as [| | | | | commit]; try discriminate.
      destruct (dict_find "committer" (rev commit)) as [c2 |] eqn:E2; [| discriminate].
      cbn [bindR].
      destruct c2 as [| | | | | committer]; try discriminate.
      destruct (dict_find "date" (rev committer)) as [d |] eqn:Ed; [| discriminate].
      intros Hv. injection Hv as <-.
      exists first, rest, commit, committer. repeat split; assumption.
  - intros [first [rest [commit [committer [-> [E1 [E2 E3]]]]]]].
    cbn [bindR]. rewrite E1. cbn [bindR]. rewrite E2. cbn [bindR]. rewrite E3. reflexivity.
Qed.

(** ** The callbacks of [dash_covid.py] *)

(** X12. The column a callback reads for a dropdown value, [Total <colname>],
    is a column of the consolidated table exactly when the value contains
    "confirmed" or "deaths", or contains "active" and not "recovered".
    For a key of the recovered series the label is "Total Recoveries",
    which the table (whose column is "Total Recovered") does not have:
    reading it raises a KeyError. *)
Theorem selected_column
    (to_datetime : list string -> option (list Z))
    (w : World) (log log' : Log) (b : Bundle) (key : string)
    (H : get_datasets to_datetime w log = (inr b, log')) :
  exists consol,
    dict_find Constants.TS_COVID19_CONSOLIDATED_COUNTRY (fst b) = Some (FrameT consol)
    /\ let colname := percent_s "Total " (key_to_colname key) in
       let resolves :=
         contains "confirmed" key || contains "deaths" key
         || (negb (contains "recovered" key) && contains "active" key) in
       (resolves = true -> exists values, get_column colname consol = inr values)
       /\ (resolves = false -> get_column colname consol = inl (KeyError colname))
       /\ (contains "confirmed" key = false -> contains "deaths" key = false ->
           contains "recovered" key = true -> colname = "Total Recoveries").
Proof.
  destruct (bundle_consolidated to_datetime w log log' b H)
    as [c1 [c2 [c3 [consol Hall]]]].
  cbv zeta in Hall.
  destruct Hall as [_ [_ [_ [_ [_ [_ [Hc [_ [Hcols _]]]]]]]]].
  exists consol. split; [exact Hc |]. cbv zeta.
  unfold get_column, key_to_colname. rewrite Hcols.
  destruct (contains "confirmed" key); [repeat split; try discriminate; eexists; reflexivity |].
  destruct (contains "deaths" key); [repeat split; try discriminate; eexists; reflexivity |].
  destruct (contains "recovered" key); [repeat split; discriminate |].
  destruct (contains "active" key); repeat split; try discriminate.
  eexists; reflexivity.
Qed.


Lemma max_date_fold (rs : list (Key * list Cell)) : forall acc,
  match fold_left later_date rs acc with
  | None => acc = None /\ rs = []
  | Some m =>
      (forall a, acc = Some a -> a <= m)
      /\ (forall r, In r rs -> snd (fst r) <= m)
      /\ (acc = Some m \/ exists r, In r rs /\ snd (fst r) = m)
  end.
Proof.
  induction rs as [| r rs IH]; intros acc; cbn [fold_left].
  - destruct acc as [a |]; [| tauto].
    split; [intros a' E; injection E as <-; lia |]. split; [intros r [] | now left].
  - specialize (IH (later_date acc r)).
    assert (Hstep : later_date acc r
                    = Some (match acc with
                            | None => snd (fst r)
                            | Some x => Z.max x (snd (fst r))
                            end)) by (destruct acc; reflexivity).
    destruct (fold_left later_date rs (later_date acc r)) as [m |].
    + destruct IH as [Ha [Hr Hm]]. specialize (Ha _ Hstep). split; [| split].
      * intros a ->. lia.
      * intros r' [<- | Hin]; [| now apply Hr]. destruct acc as [a |]; lia.
      * destruct Hm as [Hm | [r' [Hin E]]]; [| right; exists r'; split; [now right | exact E]].
        rewrite Hstep in Hm. injection Hm as Hm. destruct acc as [a |].
        -- destruct (Z.max_spec a (snd (fst r))) as [[_ E] | [_ E]]; rewrite E in Hm.
           ++ right. exists r. split; [now left | exact Hm].
           ++ left. now subst.
        -- right. exists r. split; [now left | exact Hm].
    + destruct IH as [Hacc _]. rewrite Hstep in Hacc. discriminate.
Qed.

Lemma df_max_date_rows (df : Frame) (row : Key * list Cell) :
  In row (rows (df_max_date df))
  <-> In row (rows df) /\ forall row', In row' (rows df) -> snd (fst row') <= snd (fst row).
Proof.
  unfold df_max_date, max_date. cbn [rows].
  pose proof (max_date_fold (rows df) None) as Hm.
  destruct (fold_left later_date (rows df) None) as [m |].
  - destruct Hm as [_ [Hle Hex]]. rewrite filter_In, Z.eqb_eq. split.
    + intros [Hin E]. split; [exact Hin |].
      intros row' Hr'. specialize (Hle row' Hr'). unfold Key in *. lia.
    + intros [Hin Hmax]. split; [exact Hin |].
      destruct Hex as [Hex | [r [Hr E]]]; [discriminate |].
      specialize (Hmax r Hr). specialize (Hle row Hin). unfold Key in *. lia.
  - destruct Hm as [_ Hnil]. rewrite Hnil. simpl. tauto.
Qed.

Lemma df_max_date_same_date (df : Frame) (r r' : Key * list Cell) :
  In r (rows (df_max_date df)) -> In r' (rows (df_max_date df)) ->
  snd (fst r) = snd (fst r').
Proof.
  intros H1 H2. apply df_max_date_rows in H1. apply df_max_date_rows in H2.
  destruct H1 as [I1 M1]. destruct H2 as [I2 M2].
  specialize (M1 r' I2). specialize (M2 r I1). unfold Key in *. lia.
Qed.

Lemma filter_rows_index_NoDup {K : Type} (keep : K * list Cell -> bool)
    (rs : list (K * list Cell)) (Hnd : NoDup (map fst rs)) :
  NoDup (map fst (filter keep rs)).
Proof.
  induction rs as [| row rs IH]; cbn [filter map]; [constructor |].
  apply NoDup_cons_iff in Hnd. destruct Hnd as [Hfresh Hnd].
  destruct (keep row); cbn [map]; [| exact (IH Hnd)].
  apply NoDup_cons; [| exact (IH Hnd)].
  intros Hin. apply Hfresh. apply in_map_iff in Hin. destruct Hin as [row' [E Hrow']].
  apply filter_In in Hrow'. rewrite <- E. apply in_map. tauto.
Qed.

Lemma df_max_date_countries (df : Frame) :
  NoDup (index df) -> NoDup (map (fun r => fst (fst r)) (rows (df_max_date df))).
Proof.
  intros Hnd.
  assert (Hkeys : NoDup (map fst (rows (df_max_date df)))).
  { unfold df_max_date. cbn [rows]. destruct (max_date df); [| constructor].
    exact (filter_rows_index_NoDup _ _ Hnd). }
  rewrite <- (map_map fst fst).
  apply NoDup_map_NoDup_ForallPairs; [| exact Hkeys].
  intros k1 k2 H1 H2 E.
  apply in_map_iff in H1. destruct H1 as [r1 [<- R1]].
  apply in_map_iff in H2. destruct H2 as [r2 [<- R2]].
  pose proof (df_max_date_same_date df r1 r2 R1 R2) as Hd.
  apply injective_projections; [exact E | exact Hd].
Qed.

Lemma select_date_rows (d : Z) (rs : list (Key * list Cell)) : forall start,
  map (fun r : (nat * Key) * list Cell => (snd (fst r), snd r))
      (filter (fun r => Z.eqb (snd (snd (fst r))) d)
              (map (fun ir : nat * (Key * list Cell) =>
                      ((fst ir, fst (snd ir)), snd (snd ir)))
                   (combine (seq start (List.length rs)) rs)))
  = filter (fun r => Z.eqb (snd (fst r)) d) rs.
Proof.
  induction rs as [| [k cs] rs IH]; intros start; [reflexivity |].
  cbn [List.length seq combine map filter fst snd].
  destruct (Z.eqb (snd k) d); cbn [map fst snd]; now rewrite IH.
Qed.

Lemma reset_index_positions (rs : list (Key * list Cell)) (r : (nat * Key) * list Cell) :
  forall start,
  In r (map (fun ir : nat * (Key * list Cell) => ((fst ir, fst (snd ir)), snd (snd ir)))
            (combine (seq start (List.length rs)) rs)) ->
  (start <= fst (fst r))%nat
  /\ nth_error rs (fst (fst r) - start) = Some (snd (fst r), snd r).
Proof.
  induction rs as [| [k cs] rs IH]; intros start Hr; [contradiction |].
  cbn [List.length seq combine map fst snd] in Hr. destruct Hr as [<- | Hr].
  - cbn [fst snd]. rewrite Nat.sub_diag. split; [lia | reflexivity].
  - destruct (IH (S start) Hr) as [Hle Hnth]. split; [lia |].
    replace (fst (fst r) - start)%nat with (S (fst (fst r) - S start)) by lia.
    exact Hnth.
Qed.

(** X13. What [filter_dataset] hands to the map and the table: for a bundle of
    [get_datasets] it never fails, and returns the dropdown value with the
    JSON text of a selection of the consolidated table: exactly the rows
    of the latest date, in their order, with all the columns and under
    the positions they have in the table; there is at most one row per
    country, and at least one row unless the table is empty. *)
Theorem filter_dataset_latest
    (to_datetime : list string -> option (list Z)) (to_json : Selection -> string)
    (w : World) (log log' : Log) (b : Bundle) (value : string)
    (H : get_datasets to_datetime w log = (inr b, log')) :
  exists consol,
    let selection := select_date (max_date consol) (reset_index consol) in
    dict_find Constants.TS_COVID19_CONSOLIDATED_COUNTRY (fst b) = Some (FrameT consol)
    /\ filter_dataset to_json b value = inr (value, to_json (SelectedFrame selection))
    /\ columns selection = columns consol
    /\ map (fun r => (snd (fst r), snd r)) (rows selection) = rows (df_max_date consol)
    /\ (forall r, In r (rows selection) ->
          nth_error (rows consol) (fst (fst r)) = Some (snd (fst r), snd r))
    /\ (forall row,
          In row (rows (df_max_date consol))
          <-> In row (rows consol)
              /\ forall row', In row' (rows consol) -> snd (fst row') <= snd (fst row))
    /\ NoDup (map (fun r => fst (fst r)) (rows (df_max_date consol)))
    /\ (rows consol <> [] -> rows (df_max_date consol) <> []).
Proof.
  destruct (bundle_consolidated to_datetime w log log' b H)
    as [c1 [c2 [c3 [consol Hall]]]].
  cbv zeta in Hall.
  destruct Hall as [_ [_ [_ [_ [_ [_ [Hc [_ [_ [_ [Hidx [N1 _]]]]]]]]]]]].
  exists consol. cbv zeta. split; [exact Hc |].
  split; [unfold filter_dataset, dict_get; rewrite Hc; reflexivity |].
  split; [reflexivity |].
  split.
  { unfold select_date, df_max_date, reset_index. cbn [rows columns].
    destruct (max_date consol) as [m |]; [apply select_date_rows | reflexivity]. }
  split.
  { intros r Hr. unfold select_date, reset_index in Hr. cbn [rows columns] in Hr.
    destruct (max_date consol) as [m |]; [| contradiction].
    apply filter_In in Hr. destruct Hr as [Hr _].
    destruct (reset_index_positions _ _ 0 Hr) as [_ Hnth].
    now rewrite Nat.sub_0_r in Hnth. }
  split; [apply df_max_date_rows |].
  split; [apply df_max_date_countries; now rewrite Hidx |].
  intros Hne Hempty.
  pose proof (max_date_fold (rows consol) None) as Hm.
  unfold df_max_date, max_date in Hempty. cbn [rows] in Hempty.
  destruct (fold_left later_date (rows consol) None) as [m |].
  - destruct Hm as [_ [_ [Hm | [r [Hr E]]]]]; [discriminate |].
    assert (Hin : In r (filter (fun r0 => Z.eqb (snd (fst r0)) m) (rows consol)))
      by (apply filter_In; split; [exact Hr | now apply Z.eqb_eq]).
    rewrite Hempty in Hin. contradiction.
  - destruct Hm as [_ Hnil]. contradiction.
Qed.

(** ** The daily tables of a bundle *)



(** ** table_from_dataframe *)

Lemma map_index_of_row {V : Type} (missing : V) (cols : list string) (row : list V) :
  NoDup cols -> List.length row = List.length cols ->
  map (fun col => nth (index_of col cols) row missing) cols = row.
Proof.
  intros Hnd Hlen.
  apply (nth_ext _ _ missing missing); [now rewrite length_map |].
  intros i Hi. rewrite length_map in Hi.
  rewrite (nth_map_lt _ _ _ _ EmptyString) by exact Hi.
  now rewrite index_of_nth_NoDup.
Qed.

Lemma map_nth_seq {A : Type} (d : A) (l : list A) : forall n,
  map (fun i => nth i l d) (seq 0 (Nat.min (List.length l) n)) = firstn n l.
Proof.
  intros n.
  apply (nth_ext _ _ d d).
  - rewrite length_map, length_seq, length_firstn. lia.
  - intros i Hi. rewrite length_map, length_seq in Hi.
    rewrite (nth_map_lt _ _ _ _ 0%nat) by (now rewrite length_seq).
    rewrite seq_nth by exact Hi. rewrite nth_firstn.
    destruct (Nat.ltb_spec i n); [reflexivity | lia].
Qed.

(** X15. The rendered table shows the first [max_rows] rows of the frame, cell
    for cell and in order, and no other row: never more than [max_rows],
    and all of them when the frame is not longer.  The header row is
    there exactly when [headers] is set. *)
Theorem table_from_dataframe_rows {V : Type} (missing : V)
    (dataframe : DisplayFrame V) (max_rows : nat) (headers : bool)
    (table_style : Dict string)
    (Hlabels : NoDup (d_columns dataframe))
    (Hrect : Forall (fun row => List.length row = List.length (d_columns dataframe))
                    (d_rows dataframe)) :
  table_from_dataframe missing dataframe max_rows headers table_style
  = HtmlTable "table table-sm"
      ((if headers then [Thead (Tr (map Th (d_columns dataframe)))] else [])
       ++ [Tbody (map (fun row => Tr (map Td row)) (firstn max_rows (d_rows dataframe)))
                 table_style])
  /\ body_rows (table_from_dataframe missing dataframe max_rows headers table_style)
     = map (fun row => Tr (map Td row)) (firstn max_rows (d_rows dataframe))
  /\ List.length (body_rows (table_from_dataframe missing dataframe max_rows headers
                                                  table_style))
     = Nat.min (List.length (d_rows dataframe)) max_rows.
Proof.
  assert (Hbody :
    map (fun i => Tr (map (fun col => Td (iloc_cell missing dataframe i col))
                          (d_columns dataframe)))
        (seq 0 (Nat.min (List.length (d_rows dataframe)) max_rows))
    = map (fun row => Tr (map Td row)) (firstn max_rows (d_rows dataframe))).
  { rewrite <- (map_nth_seq [] (d_rows dataframe) max_rows), map_map.
    apply map_ext_in. intros i Hi. apply in_seq in Hi. f_equal.
    unfold iloc_cell.
    rewrite <- (map_map (fun col => nth (index_of col (d_columns dataframe))
                                        (nth i (d_rows dataframe) []) missing) Td).
    f_equal. apply map_index_of_row; [exact Hlabels |].
    rewrite Forall_forall in Hrect. apply Hrect, nth_In. lia. }
  unfold table_from_dataframe. cbv zeta. rewrite Hbody.
  split; [reflexivity |]. split.
  - unfold body_rows. destruct headers; cbn [app flat_map]; now rewrite app_nil_r.
  - unfold body_rows. destruct headers; cbn [app flat_map]; rewrite app_nil_r;
      rewrite length_map, length_firstn; lia.
Qed.

(** ** Concrete instances of the further properties *)




Lemma clean_data_cells_witness :
  nth_error (raw_rows sample_raw) 1
  = Some (mkRawRow (Some "p1") (Some "B") (Int 0) (Int 0) [Int 0; Int 1; Int 1])
  /\ (2 < List.length (date_columns sample_raw))%nat
  /\ nth_error (clean_data sample_raw) (2 * 3 + 1)
     = Some (mkLongRow (Some "p1") (Some "B") (Int 0) (Int 0) "1/24/20" (Int 1)).
Proof.
  assert (Hi : nth_error (raw_rows sample_raw) 1
               = Some (mkRawRow (Some "p1") (Some "B") (Int 0) (Int 0)
                                [Int 0; Int 1; Int 1]))
    by reflexivity.
  assert (Hj : (2 < List.length (date_columns sample_raw))%nat) by (simpl; lia).
  exact (conj Hi (conj Hj (clean_data_cells sample_raw 1 2 _ Hi Hj))).
Defined.




Lemma country_data_rejects_colliding_dates_witness :
  "1/22/20" <> "1/23/20"
  /\ exists msg,
       country_data epoch_to_datetime [sample_record "1/22/20" 1; sample_record "1/23/20" 2]
                    "Cases" "Total Confirmed"
       = inl (ValueError msg).
Proof.
  assert (Hl : Date (sample_record "1/22/20" 1) <> Date (sample_record "1/23/20" 2))
    by discriminate.
  split; [exact Hl |].
  apply (country_data_rejects_colliding_dates epoch_to_datetime
           [sample_record "1/22/20" 1; sample_record "1/23/20" 2]
           "Cases" "Total Confirmed"
           (sample_record "1/22/20" 1) (sample_record "1/23/20" 2) [0; 0]).
  - simpl; tauto.
  - simpl; tauto.
  - discriminate.
  - discriminate.
  - exact Hl.
  - reflexivity.
  - reflexivity.
Defined.


Lemma sample_merged_rectangular : rectangular sample_merged.
Proof. repeat constructor. Defined.

Lemma derived_columns_preserve_witness :
  rectangular sample_merged
  /\ derived_columns sample_merged = inr sample_consolidated
  /\ index sample_consolidated = index sample_merged
  /\ get_column "Total Deaths" sample_consolidated = get_column "Total Deaths" sample_merged.
Proof.
  assert (H : derived_columns sample_merged = inr sample_consolidated)
    by (vm_compute; reflexivity).
  destruct (derived_columns_preserve sample_merged sample_consolidated
              sample_merged_rectangular H) as [Hidx [_ [_ [Hother _]]]].
  split; [exact sample_merged_rectangular |]. split; [exact H |].
  split; [exact Hidx |].
  apply Hother; discriminate.
Defined.

Lemma sample_run :
  get_datasets mdy_to_datetime sample_world [] = (inr sample_bundle, fetch_cycle).
Proof. vm_compute. reflexivity. Defined.

Lemma consolidated_alignment_witness :
  get_datasets mdy_to_datetime sample_world [] = (inr sample_bundle, fetch_cycle)
  /\ exists confirmed consol : Frame,
       dict_find Constants.TS_COVID19_CONFIRMED_COUNTRY (fst sample_bundle)
       = Some (FrameT confirmed)
       /\ dict_find Constants.TS_COVID19_CONSOLIDATED_COUNTRY (fst sample_bundle)
          = Some (FrameT consol)
       /\ index consol = index confirmed.
Proof.
  split; [exact sample_run |].
  destruct (consolidated_alignment mdy_to_datetime sample_world [] fetch_cycle
              sample_bundle sample_run) as [confirmed [deaths [recovered [consol Hall]]]].
  cbv zeta in Hall.
  destruct Hall as [H1 [_ [_ [_ [_ [_ [H7 [_ [_ [_ [Hidx _]]]]]]]]]]].
  exists confirmed, consol. exact (conj H1 (conj H7 Hidx)).
Defined.

Lemma bundle_identifiers_witness :
  get_datasets mdy_to_datetime sample_world [] = (inr sample_bundle, fetch_cycle)
  /\ List.length (map fst (fst sample_bundle)) = 11%nat
  /\ commit_date (json_at sample_world commits_url) = inr (snd sample_bundle).
Proof.
  split; [exact sample_run |].
  destruct (bundle_identifiers mdy_to_datetime sample_world [] fetch_cycle
              sample_bundle sample_run) as [Hkeys [_ [Hdate _]]].
  split; [rewrite Hkeys; reflexivity | exact Hdate].
Defined.

Lemma selected_column_witness :
  get_datasets mdy_to_datetime sample_world [] = (inr sample_bundle, fetch_cycle)
  /\ exists consol,
       dict_find Constants.TS_COVID19_CONSOLIDATED_COUNTRY (fst sample_bundle)
       = Some (FrameT consol)
       /\ get_column (percent_s "Total "
                        (key_to_colname Constants.TS_COVID19_RECOVERED_COUNTRY)) consol
          = inl (KeyError "Total Recoveries")
       /\ exists values,
            get_column (percent_s "Total "
                          (key_to_colname Constants.TS_COVID19_ACTIVE_CASES_COUNTRY)) consol
            = inr values.
Proof.
  split; [exact sample_run |].
  destruct (selected_column mdy_to_datetime sample_world [] fetch_cycle sample_bundle
              Constants.TS_COVID19_RECOVERED_COUNTRY sample_run)
    as [consol [Hc [_ [Hno _]]]].
  destruct (selected_column mdy_to_datetime sample_world [] fetch_cycle sample_bundle
              Constants.TS_COVID19_ACTIVE_CASES_COUNTRY sample_run)
    as [consol' [Hc' [Hyes _]]].
  assert (E : consol' = consol) by congruence. subst consol'.
  exists consol. split; [exact Hc |].
  split; [exact (Hno eq_refl) | exact (Hyes eq_refl)].
Defined.

Lemma filter_dataset_latest_witness :
  get_datasets mdy_to_datetime sample_world [] = (inr sample_bundle, fetch_cycle)
  /\ filter_dataset countries_to_json sample_bundle Constants.TS_COVID19_CONFIRMED_COUNTRY
     = inr (Constants.TS_COVID19_CONFIRMED_COUNTRY,
            String.concat (String (ascii_of_nat 10) EmptyString) ["A"; "B"; "C"]).
Proof.
  split; [exact sample_run |].
  destruct (filter_dataset_latest mdy_to_datetime countries_to_json sample_world []
              fetch_cycle sample_bundle Constants.TS_COVID19_CONFIRMED_COUNTRY sample_run)
    as [consol [Hc [Hf _]]].
  rewrite Hf. vm_compute in Hc. injection Hc as <-. vm_compute. reflexivity.
Defined.



Lemma table_from_dataframe_rows_witness :
  NoDup (d_columns sample_display)
  /\ Forall (fun row => List.length row = List.length (d_columns sample_display))
            (d_rows sample_display)
  /\ body_rows (table_from_dataframe EmptyString sample_display 2 false [])
     = [Tr [Td "4"; Td "A"]; Tr [Td "2"; Td "B"]].
Proof.
  assert (Hl : NoDup (d_columns sample_display))
    by (repeat (constructor; [simpl; intuition discriminate |]); constructor).
  assert (Hr : Forall (fun row => List.length row = List.length (d_columns sample_display))
                      (d_rows sample_display)) by (repeat constructor).
  split; [exact Hl |]. split; [exact Hr |].
  destruct (table_from_dataframe_rows EmptyString sample_display 2 false [] Hl Hr)
    as [_ [Hbody _]].
  rewrite Hbody. reflexivity.
Defined.

